(** * CloudBot weather plugin (plugins/weather.py): a shallow embedding

    The plugin keeps a process-wide dictionary [location_cache] next to a
    database table [weather(nick, loc)], talks to two HTTP services through
    [requests.get] and exposes two chat commands, [weather] and [meteo].

    Python values are embedded as follows:
    - [str] is [string]; non-ASCII text is carried as its UTF-8 bytes;
    - a decoded JSON document is a [json] value;
    - a raised exception is a value of [exn], and a function that can raise
      returns an [outcome];
    - the module globals, the database session and the calls that leave the
      process are threaded through a state-and-exception monad [M]. *)

From Stdlib Require Import ZArith String Ascii List Floats.PrimFloat.
From stdpp Require Import base option list strings pretty gmap.

Local Open Scope string_scope.
Local Open Scope list_scope.
Set Warnings "-register-all".

(** ** Python values *)

(** What [json.loads] builds: None, bool, int, float, str, list and dict
    (a dict is kept as its items, first binding wins on lookup). *)
Inductive json : Type :=
  | JNull
  | JBool (b : bool)
  | JInt (n : Z)
  | JFloat (f : float)
  | JStr (s : string)
  | JArr (items : list json)
  | JObj (items : list (string * json)).

(** The exceptions that can leave the functions of the plugin. *)
Inductive exn : Type :=
  | GeocodeAPIError (status : json)
  | APIKeyMissing (name : string)
  | ConnectionError
  | HTTPError
  | JSONDecodeError
  | KeyError (key : string)
  | IndexError
  | TypeError
  | AttributeError
  | IntegrityError.

Inductive outcome (A : Type) : Type :=
  | Ret (a : A)
  | Raise (e : exn).
Arguments Ret {A} a.
Arguments Raise {A} e.

(** The built-ins whose result is fixed by the interpreter and not by the
    plugin: [str.lower], and [str()] / [repr()] of a decoded JSON value. *)
Class PyRuntime : Type := {
  str_lower : string → string;
  py_str : json → string;
  py_repr : json → string;
}.

(** Truth value of an object, as tested by [if x:] and [not x]. *)
Definition truthy (j : json) : bool :=
  match j with
  | JNull => false
  | JBool b => b
  | JInt n => negb (n =? 0)%Z
  | JFloat f => negb (PrimFloat.eqb f PrimFloat.zero)
  | JStr s => negb (String.eqb s "")
  | JArr l => match l with [] => false | _ => true end
  | JObj l => match l with [] => false | _ => true end
  end.

Fixpoint assoc {V : Type} (k : string) (l : list (string * V)) : option V :=
  match l with
  | [] => None
  | (k', v) :: l' => if String.eqb k k' then Some v else assoc k l'
  end.

(** [j[key]] with a string key. *)
Definition getitem (j : json) (key : string) : outcome json :=
  match j with
  | JObj items =>
      match assoc key items with
      | Some v => Ret v
      | None => Raise (KeyError key)
      end
  | _ => Raise TypeError
  end.

(** [j[k1][k2]...] with string keys. *)
Fixpoint getpath (j : json) (keys : list string) : outcome json :=
  match keys with
  | [] => Ret j
  | k :: keys' =>
      match getitem j k with
      | Ret v => getpath v keys'
      | Raise e => Raise e
      end
  end.

(** [j[i]] with a non-negative integer index. *)
Definition getindex (j : json) (i : nat) : outcome json :=
  match j with
  | JArr items =>
      match nth_error items i with
      | Some v => Ret v
      | None => Raise IndexError
      end
  | JStr s =>
      match String.get i s with
      | Some c => Ret (JStr (String c EmptyString))
      | None => Raise IndexError
      end
  | JObj _ => Raise (KeyError "")
  | _ => Raise TypeError
  end.

(** [j.get(key)]: only a dict has the method. *)
Definition dict_get (j : json) (key : string) : outcome json :=
  match j with
  | JObj items => Ret (default JNull (assoc key items))
  | _ => Raise AttributeError
  end.

(** [needle in hay] on strings. *)
Fixpoint contains (needle hay : string) : bool :=
  if String.prefix needle hay then true
  else match hay with
       | EmptyString => false
       | String _ hay' => contains needle hay'
       end.

(** [needle in j] for a string [needle]: substring of a str, element of a
    list, key of a dict; the other types are not containers. *)
Definition py_in (needle : string) (j : json) : outcome bool :=
  match j with
  | JStr s => Ret (contains needle s)
  | JArr items =>
      Ret (existsb (λ x, match x with JStr s => String.eqb s needle | _ => false end) items)
  | JObj items => Ret (bool_decide (is_Some (assoc needle items)))
  | _ => Raise TypeError
  end.

(** [format(j, "")], the conversion applied to a "{}" replacement field. *)
Definition format_value `{PyRuntime} (j : json) : string :=
  match j with
  | JStr s => s
  | _ => py_str j
  end.

(** [j == s] for a string literal [s]. *)
Definition eq_str (j : json) (s : string) : bool :=
  match j with
  | JStr s' => String.eqb s' s
  | _ => false
  end.

(** ** GeocodeAPIError and APIKeyMissing

    Both exception classes carry one field and two renderings: [__str__]
    (English) and [en_francais]. *)

Module GeocodeAPIError.

Definition __str__ `{PyRuntime} (_status : json) : string :=
  if eq_str _status "REQUEST_DENIED" then
    "The geocode API is off in the Google Developers Console."
  else if eq_str _status "ZERO_RESULTS" then
    "No results found."
  else if eq_str _status "OVER_QUERY_LIMIT" then
    "The geocode API quota has run out."
  else if eq_str _status "UNKNOWN_ERROR" then
    "Unknown Error."
  else if eq_str _status "INVALID_REQUEST" then
    "Invalid Request."
  else
    py_repr _status.

Definition en_francais `{PyRuntime} (_status : json) : string :=
  if eq_str _status "REQUEST_DENIED" then
    "L'API de géocodage est désactivée dans la console des développeurs Google."
  else if eq_str _status "ZERO_RESULTS" then
    "Aucun resultat n'a été trouvé."
  else if eq_str _status "OVER_QUERY_LIMIT" then
    "Le quota de API de géocodage est épuisé."
  else if eq_str _status "UNKNOWN_ERROR" then
    "Quelque chose a mal tourné."
  else if eq_str _status "INVALID_REQUEST" then
    "Il y a eu une demande invalide."
  else
    "La France a été trahie! " +:+ py_repr _status.

End GeocodeAPIError.

Module APIKeyMissing.

Definition __str__ (_name : string) : string :=
  "This command requires a " +:+ _name +:+ " API key.".

Definition en_francais (_name : string) : string :=
  "Cette commande nécessite une clé API " +:+ _name +:+ ".".

End APIKeyMissing.

(** ** Process state and the outside world *)

(** A row of the table [weather], whose primary key is [nick]. *)
Definition row : Type := string * string.

Inductive statement : Type :=
  | Update (loc : string) (where_nick : string)
  | Insert (nick loc : string).

(** What the plugin does that is visible outside its own variables. *)
Inductive event : Type :=
  | EvGet (url : string) (params : list (string * option string))
  | EvShorten (url : json)
  | EvNotice
  | EvReply (line : string)
  | EvLookup (nick : string)
  | EvExecute (s : statement)
  | EvCommit
  | EvSelect.

(** [location_cache] is the module global; [pending] is the table as the
    session sees it and [durable] the table as last committed; [log] records
    the events in the order they happened. *)
Record state : Type := State {
  location_cache : gmap string string;
  pending : list row;
  durable : list row;
  log : list event;
}.

(** The state once [events] have happened and nothing else has changed. *)
Definition with_log (st : state) (events : list event) : state :=
  State (location_cache st) (pending st) (durable st) (log st ++ events).

Inductive http_reply : Type :=
  | Unreachable
  | BadStatus
  | NotJSON
  | Body (j : json).

(** The collaborators: the HTTP services behind [requests.get] and
    [web.try_shorten]. *)
Record world : Type := World {
  http : string → list (string * option string) → http_reply;
  shorten : json → json;
}.

(** The keys read by [on_start] from the bot configuration and the module
    constant [bias]; [None] is Python's [None]. *)
Record config : Type := Config {
  dev_key : option string;
  wunder_key : option string;
  bias : option string;
}.

Definition M (A : Type) : Type := state → outcome A * state.

#[export] Instance M_ret : MRet M := λ A a st, (Ret a, st).
#[export] Instance M_bind : MBind M := λ A B f m st,
  match m st with
  | (Ret a, st') => f a st'
  | (Raise e, st') => (Raise e, st')
  end.

Definition raise {A : Type} (e : exn) : M A := λ st, (Raise e, st).

Definition lift {A : Type} (o : outcome A) : M A := λ st, (o, st).

Definition emit (e : event) : M unit := λ st, (Ret (), with_log st [e]).

(** [try: body except (APIKeyMissing, GeocodeAPIError) as e: handler]. *)
Definition try_except {A : Type} (body : M A) (handler : exn → M A) : M A := λ st,
  match body st with
  | (Raise (APIKeyMissing name), st') => handler (APIKeyMissing name) st'
  | (Raise (GeocodeAPIError status), st') => handler (GeocodeAPIError status) st'
  | r => r
  end.

Definition get_state : M state := λ st, (Ret st, st).

(** Truth value of a variable holding a str or None. *)
Definition str_truthy (s : option string) : bool :=
  match s with
  | Some s => negb (String.eqb s "")
  | None => false
  end.

(** ** The location cache *)

(** [db.execute(table.select())]: every row, as the session sees them. *)
Definition select_all : M (list row) := λ st,
  (Ret (pending st), with_log st [EvSelect]).

(** [db.execute(statement)] for an UPDATE or an INSERT; the primary key
    rejects a second row for the same nick. *)
Definition execute (s : statement) : M unit := λ st,
  let st1 := with_log st [EvExecute s] in
  match s with
  | Update loc n =>
      (Ret (),
       State (location_cache st)
             (map (λ r : row, if String.eqb (fst r) n then (fst r, loc) else r) (pending st))
             (durable st) (log st1))
  | Insert n loc =>
      if existsb (λ r : row, String.eqb (fst r) n) (pending st) then (Raise IntegrityError, st1)
      else (Ret (), State (location_cache st) (pending st ++ [(n, loc)]) (durable st) (log st1))
  end.

Definition commit : M unit := λ st,
  (Ret (), State (location_cache st) (pending st) (pending st) (log st ++ [EvCommit])).

(** [location_cache[nick] = location]. *)
Definition cache_store (nick location : string) : M unit := λ st,
  (Ret (), State (<[nick := location]> (location_cache st)) (pending st) (durable st) (log st)).

Fixpoint for_each {A : Type} (body : A → M unit) (l : list A) : M unit :=
  match l with
  | [] => mret ()
  | x :: l' => body x ;; for_each body l'
  end.

Definition load_cache : M unit :=
  rows ← select_all;
  for_each (λ r : row,
    let nick := fst r in
    let location := snd r in
    cache_store nick location) rows.

Definition set_location `{PyRuntime} (nick location : string) : M unit :=
  let nick := str_lower nick in
  let location := str_lower location in
  st ← get_state;
  let statement :=
    if bool_decide (is_Some (location_cache st !! nick))
    then Update location nick
    else Insert nick location in
  execute statement ;;
  commit ;;
  load_cache.

Definition get_location `{PyRuntime} (nick : string) : M (option string) := λ st,
  (Ret (location_cache st !! str_lower nick), with_log st [EvLookup nick]).

Definition on_start : M unit := load_cache.

(** ** Geocoding and the weather lookup *)

Definition google_base : string := "https://maps.googleapis.com/maps/api/".
Definition geocode_api : string := google_base +:+ "geocode/json".

(** [wunder_api.format(key, language, location)]. *)
Definition wunder_api (key language location : string) : string :=
  "http://api.wunderground.com/api/" +:+ key +:+ "/forecast/lang:" +:+ language
  +:+ "/geolookup/conditions/q/" +:+ location +:+ ".json".

(** [request = requests.get(url, params); request.raise_for_status();
    request.json()]. *)
Definition requests_get (w : world) (url : string)
    (params : list (string * option string)) : M json :=
  emit (EvGet url params) ;;
  match http w url params with
  | Unreachable => raise ConnectionError
  | BadStatus => raise HTTPError
  | NotJSON => raise JSONDecodeError
  | Body j => mret j
  end.

Definition find_location (w : world) (cfg : config) (location : string) : M json :=
  let params := [("address", Some location); ("key", dev_key cfg)] in
  let params := if str_truthy (bias cfg) then (params ++ [("region", bias cfg)])%list else params in
  json ← requests_get w geocode_api params;
  status ← lift (getitem json "status");
  if negb (eq_str status "OK") then raise (GeocodeAPIError status)
  else
    results ← lift (getitem json "results");
    first ← lift (getindex results 0);
    geometry ← lift (getitem first "geometry");
    lift (getitem geometry "location").

(** What [get_weather_data] hands back: [None], a message, or the dict. *)
Inductive result : Type :=
  | RNone
  | RStr (s : string)
  | RDict (d : list (string * json)).

Definition notice_doc : M unit := emit EvNotice.

(** The body of [get_weather_data] from the call of [find_location] on,
    that is once [location] is bound. *)
Definition weather_at `{PyRuntime} (w : world) (cfg : config)
    (text nick language location : string) : M result :=
  location_data ← find_location w cfg location;
  lat ← lift (getitem location_data "lat");
  lng ← lift (getitem location_data "lng");
  let formatted_location := format_value lat +:+ "," +:+ format_value lng in
  let url := wunder_api (default "" (wunder_key cfg)) language formatted_location in
  response ← requests_get w url [];
  response_ ← lift (getitem response "response");
  error ← lift (dict_get response_ "error");
  if truthy error then
    description ← lift (getitem error "description");
    mret (RStr (format_value description))
  else
    forecast ← lift (getpath response ["forecast"; "simpleforecast"; "forecastday"]);
    if negb (truthy forecast) then mret (RStr "Unable to retrieve forecast data.")
    else
      forecast_today ← lift (getindex forecast 0);
      forecast_tomorrow ← lift (getindex forecast 1);
      forecast_today_high ← lift (getitem forecast_today "high");
      forecast_today_low ← lift (getitem forecast_today "low");
      forecast_tomorrow_high ← lift (getitem forecast_tomorrow "high");
      forecast_tomorrow_low ← lift (getitem forecast_tomorrow "low");
      current_observation ← lift (getitem response "current_observation");
      place ← lift (getpath current_observation ["display_location"; "full"]);
      conditions ← lift (getitem current_observation "weather");
      temp_f ← lift (getitem current_observation "temp_f");
      temp_c ← lift (getitem current_observation "temp_c");
      humidity ← lift (getitem current_observation "relative_humidity");
      wind_kph ← lift (getitem current_observation "wind_kph");
      wind_mph ← lift (getitem current_observation "wind_mph");
      wind_direction ← lift (getitem current_observation "wind_dir");
      today_conditions ← lift (getitem forecast_today "conditions");
      today_high_f ← lift (getitem forecast_today_high "fahrenheit");
      today_high_c ← lift (getitem forecast_today_high "celsius");
      today_low_f ← lift (getitem forecast_today_low "fahrenheit");
      today_low_c ← lift (getitem forecast_today_low "celsius");
      tomorrow_conditions ← lift (getitem forecast_tomorrow "conditions");
      tomorrow_high_f ← lift (getitem forecast_tomorrow_high "fahrenheit");
      tomorrow_high_c ← lift (getitem forecast_tomorrow_high "celsius");
      tomorrow_low_f ← lift (getitem forecast_tomorrow_low "fahrenheit");
      tomorrow_low_c ← lift (getitem forecast_tomorrow_low "celsius");
      let weather_data :=
        [("place", place); ("conditions", conditions);
         ("temp_f", temp_f); ("temp_c", temp_c); ("humidity", humidity);
         ("wind_kph", wind_kph); ("wind_mph", wind_mph);
         ("wind_direction", wind_direction);
         ("today_conditions", today_conditions);
         ("today_high_f", today_high_f); ("today_high_c", today_high_c);
         ("today_low_f", today_low_f); ("today_low_c", today_low_c);
         ("tomorrow_conditions", tomorrow_conditions);
         ("tomorrow_high_f", tomorrow_high_f); ("tomorrow_high_c", tomorrow_high_c);
         ("tomorrow_low_f", tomorrow_low_f); ("tomorrow_low_c", tomorrow_low_c)] in
      ob_url ← lift (getitem current_observation "ob_url");
      placeholder ← lift (py_in "?query=," ob_url);
      url ← (if placeholder : bool then lift (getitem current_observation "forecast_url")
             else mret ob_url);
      emit (EvShorten url) ;;
      let weather_data := (weather_data ++ [("url", shorten w url)])%list in
      (if negb (String.eqb text "") then set_location nick location else mret ()) ;;
      mret (RDict weather_data).

Definition get_weather_data `{PyRuntime} (w : world) (cfg : config)
    (text nick language : string) : M result :=
  if negb (str_truthy (wunder_key cfg)) then raise (APIKeyMissing "Weather Underground")
  else if negb (str_truthy (dev_key cfg)) then raise (APIKeyMissing "Google Developers Console")
  else if String.eqb text "" then
    location ← get_location nick;
    if negb (str_truthy location) then
      notice_doc ;;
      mret RNone
    else weather_at w cfg text nick language (default "" location)
  else
    weather_at w cfg text nick language text.

(** ** The two commands *)

(** A format string, cut at its replacement fields. *)
Inductive segment : Type :=
  | Lit (s : string)
  | Field (name : string).

(** [template.format_map(d)]: a field missing from [d] raises KeyError. *)
Fixpoint format_map `{PyRuntime} (template : list segment)
    (d : list (string * json)) : outcome string :=
  match template with
  | [] => Ret ""
  | Lit s :: template' =>
      match format_map template' d with
      | Ret rest => Ret (s +:+ rest)
      | Raise e => Raise e
      end
  | Field name :: template' =>
      match assoc name d with
      | None => Raise (KeyError name)
      | Some v =>
          match format_map template' d with
          | Ret rest => Ret (format_value v +:+ rest)
          | Raise e => Raise e
          end
      end
  end.

(** The control character written [\x02] in the source. *)
Definition bold : string := String (ascii_of_nat 2) EmptyString.

Definition weather_template : list segment :=
  [Field "place"; Lit (" - " +:+ bold +:+ "Current:" +:+ bold +:+ " ");
   Field "conditions"; Lit ", ";
   Field "temp_f"; Lit "F/"; Field "temp_c"; Lit "C, "; Field "humidity"; Lit ", ";
   Lit "Wind: "; Field "wind_mph"; Lit "MPH/"; Field "wind_kph"; Lit "KPH ";
   Field "wind_direction"; Lit ", ";
   Lit (bold +:+ "Today:" +:+ bold +:+ " "); Field "today_conditions"; Lit ", ";
   Lit "High: "; Field "today_high_f"; Lit "F/"; Field "today_high_c"; Lit "C, ";
   Lit "Low: "; Field "today_low_f"; Lit "F/"; Field "today_low_c"; Lit "C. ";
   Lit (bold +:+ "Tomorrow:" +:+ bold +:+ " "); Field "tomorrow_conditions"; Lit ", ";
   Lit "High: "; Field "tomorrow_high_f"; Lit "F/"; Field "tomorrow_high_c"; Lit "C, ";
   Lit "Low: "; Field "tomorrow_low_f"; Lit "F/"; Field "tomorrow_low_c"; Lit "C - ";
   Field "url"].

Definition meteo_template : list segment :=
  [Field "place"; Lit (" - " +:+ bold +:+ "Actuelle:" +:+ bold +:+ " ");
   Field "conditions"; Lit ", ";
   Field "temp_f"; Lit "F/"; Field "temp_c"; Lit "C, "; Field "humidity"; Lit ", ";
   Lit "Vent: "; Field "wind_mph"; Lit "MPH/"; Field "wind_kph"; Lit "KPH ";
   Field "wind_direction"; Lit ", ";
   Lit (bold +:+ "Aujourd'hui:" +:+ bold +:+ " "); Field "today_conditions"; Lit ", ";
   Lit "Haute: "; Field "today_high_f"; Lit "F/"; Field "today_high_c"; Lit "C, ";
   Lit "Basse: "; Field "today_low_f"; Lit "F/"; Field "today_low_c"; Lit "C. ";
   Lit (bold +:+ "Demain:" +:+ bold +:+ " "); Field "tomorrow_conditions"; Lit ", ";
   Lit "Haute: "; Field "tomorrow_high_f"; Lit "F/"; Field "tomorrow_high_c"; Lit "C, ";
   Lit "Basse: "; Field "tomorrow_low_f"; Lit "F/"; Field "tomorrow_low_c"; Lit "C - ";
   Field "url"].

Definition reply (line : string) : M unit := emit (EvReply line).

(** [str(e)] and [e.en_francais()] for the two classes the commands catch;
    [try_except] hands no other exception to a handler. *)
Definition exn_str `{PyRuntime} (e : exn) : string :=
  match e with
  | GeocodeAPIError status => GeocodeAPIError.__str__ status
  | APIKeyMissing name => APIKeyMissing.__str__ name
  | _ => ""
  end.

Definition exn_en_francais `{PyRuntime} (e : exn) : string :=
  match e with
  | GeocodeAPIError status => GeocodeAPIError.en_francais status
  | APIKeyMissing name => APIKeyMissing.en_francais name
  | _ => ""
  end.

(** A command returns a string for the framework to send, or [None]. *)
Definition weather `{PyRuntime} (w : world) (cfg : config) (text nick : string)
    : M (option string) :=
  caught ← try_except
    (weather_data ← get_weather_data w cfg text nick "EN"; mret (inr weather_data))
    (λ e, mret (inl (exn_str e)));
  match caught with
  | inl message => mret (Some message)
  | inr (RDict weather_data) =>
      line ← lift (format_map weather_template weather_data);
      reply line ;;
      mret None
  | inr (RStr weather_data) => mret (Some weather_data)
  | inr RNone => mret None
  end.

Definition meteo `{PyRuntime} (w : world) (cfg : config) (text nick : string)
    : M (option string) :=
  caught ← try_except
    (weather_data ← get_weather_data w cfg text nick "FR"; mret (inr weather_data))
    (λ e, mret (inl (exn_en_francais e)));
  match caught with
  | inl message => mret (Some message)
  | inr (RDict weather_data) =>
      line ← lift (format_map meteo_template weather_data);
      reply line ;;
      mret None
  | inr (RStr weather_data) =>
      if String.eqb weather_data "Unable to retrieve forecast data."
      then mret (Some "Impossible de récupérer les données météorologiques.")
      else mret (Some weather_data)
  | inr RNone => mret None
  end.

(** ** A runtime to run the definitions with

    Lower-casing of the ASCII letters; [str()] and [repr()] of integers,
    [None], booleans and plain strings, which is all the examples use. *)

Definition ascii_lower (c : ascii) : ascii :=
  let n := nat_of_ascii c in
  if (65 <=? n)%nat && (n <=? 90)%nat then ascii_of_nat (n + 32) else c.

Fixpoint lower (s : string) : string :=
  match s with
  | EmptyString => EmptyString
  | String c s' => String (ascii_lower c) (lower s')
  end.

Definition ascii_runtime : PyRuntime := {|
  str_lower := lower;
  py_str := λ j, match j with
                 | JStr s => s
                 | JInt n => pretty n
                 | JNull => "None"
                 | JBool true => "True"
                 | JBool false => "False"
                 | _ => "?"
                 end;
  py_repr := λ j, match j with
                  | JStr s => "'" +:+ s +:+ "'"
                  | JInt n => pretty n
                  | JNull => "None"
                  | JBool true => "True"
                  | JBool false => "False"
                  | _ => "?"
                  end;
|}.

(** * Properties *)

(** ** Vocabulary of the statements *)

(** The primary key: no two rows share a nick. *)
Definition primary_key (rows : list row) : Prop := NoDup rows.*1.

(** The dictionary after [location_cache[nick] = location] for each row in
    turn. *)
Definition loaded (cache : gmap string string) (rows : list row) : gmap string string :=
  foldl (λ c r, <[fst r := snd r]> c) cache rows.

(** The rows after [UPDATE weather SET loc = :loc WHERE nick = :n]. *)
Definition updated (loc n : string) (rows : list row) : list row :=
  map (λ r : row, if String.eqb (fst r) n then (fst r, loc) else r) rows.

(** The dictionary is a copy of the table, and nothing is uncommitted. *)
Definition in_sync (st : state) : Prop :=
  primary_key (pending st) ∧ durable st = pending st ∧
  location_cache st = list_to_map (pending st).

(** Every row of the committed table is in the dictionary, with its value. *)
Definition consistent (st : state) : Prop :=
  ∀ n l, (n, l) ∈ durable st → location_cache st !! n = Some l.

(** The operations of the cache, and the states they reach once [on_start]
    has run on the freshly imported module ([location_cache = {}]). *)
Inductive op : Type :=
  | OpLoad
  | OpGet (nick : string)
  | OpSet (nick location : string).

Definition run_op `{PyRuntime} (o : op) : M unit :=
  match o with
  | OpLoad => load_cache
  | OpGet nick => get_location nick ;; mret ()
  | OpSet nick location => set_location nick location
  end.

Definition fresh (rows : list row) (events : list event) : state :=
  State ∅ rows rows events.

Inductive reachable `{PyRuntime} : state → Prop :=
  | reach_start rows events :
      primary_key rows → reachable (snd (on_start (fresh rows events)))
  | reach_step st o :
      reachable st → reachable (snd (run_op o st)).

(** Both API keys are set to a non-empty string. *)
Definition configured (cfg : config) : Prop :=
  str_truthy (wunder_key cfg) = true ∧ str_truthy (dev_key cfg) = true.

(** The two HTTP calls of the pipeline, told apart by the URL. *)
Definition is_geocode_call (e : event) : Prop :=
  ∃ params, e = EvGet geocode_api params.

Definition is_fetch_call (e : event) : Prop :=
  ∃ key language location, e = EvGet (wunder_api key language location) [].

(** How [location] gets bound in [get_weather_data], and the state at that
    point: the text of the command, or else the caller's cached location. *)
Inductive located `{PyRuntime} (nick : string) (st : state)
    : string → string → state → Prop :=
  | located_text text :
      text ≠ "" → located nick st text text st
  | located_cached location :
      location_cache st !! str_lower nick = Some location → location ≠ "" →
      located nick st "" location (with_log st [EvLookup nick]).

(** The geocoder resolves [location] from state [st1], and the weather API
    answers [response] to the request built from the coordinates; [st3] is
    the state once both calls are made. *)
Definition fetched `{PyRuntime} (w : world) (cfg : config) (language location : string)
    (st1 st3 : state) (response : json) : Prop :=
  ∃ location_data st2 lat lng,
    find_location w cfg location st1 = (Ret location_data, st2) ∧
    getitem location_data "lat" = Ret lat ∧
    getitem location_data "lng" = Ret lng ∧
    http w (wunder_api (default "" (wunder_key cfg)) language
              (format_value lat +:+ "," +:+ format_value lng)) [] = Body response ∧
    st3 = with_log st2 [EvGet (wunder_api (default "" (wunder_key cfg)) language
                                 (format_value lat +:+ "," +:+ format_value lng)) []].

(** The response carries no [error] object (or a falsy one). *)
Definition no_error (response : json) : Prop :=
  ∃ r error, getitem response "response" = Ret r ∧ dict_get r "error" = Ret error ∧
             truthy error = false.

Definition forecast_of (response : json) : outcome json :=
  getpath response ["forecast"; "simpleforecast"; "forecastday"].

(** The ways a run of [get_weather_data] on a non-empty text can go, with
    the events it adds to the log; [g] is the geocode call and [f] the fetch.
    [with_log] leaves the dictionary and the table as they were. *)
Inductive run_shape (st : state) : outcome result → state → Prop :=
  | run_no_key name :
      run_shape st (Raise (APIKeyMissing name)) st
  | run_geocode_failed g e :
      is_geocode_call g →
      run_shape st (Raise e) (with_log st [g])
  | run_fetch_failed g f e :
      is_geocode_call g → is_fetch_call f →
      run_shape st (Raise e) (with_log st [g; f])
  | run_fetch_message g f message :
      is_geocode_call g → is_fetch_call f →
      run_shape st (Ret (RStr message)) (with_log st [g; f])
  | run_write_rejected g f url s :
      is_geocode_call g → is_fetch_call f →
      run_shape st (Raise IntegrityError) (with_log st [g; f; EvShorten url; EvExecute s])
  | run_stored g f url s d st' :
      is_geocode_call g → is_fetch_call f →
      log st' = log st ++ [g; f; EvShorten url; EvExecute s; EvCommit; EvSelect] →
      run_shape st (Ret (RDict d)) st'.

(** ** Data for the examples *)

Definition demo_rows : list row := [("alice", "paris, france")].

(** The state after [on_start] on a table with one row. *)
Definition demo_start : state := snd (on_start (fresh demo_rows [])).

(** A dictionary holding an entry whose row is no longer in the table. *)
Definition stale_state : state := State {["ghost" := "atlantis"]} [] [] [].

Definition demo_cfg : config := Config (Some "google-key") (Some "wunder-key") None.

(** A configuration read from a bot with no [api_keys] section. *)
Definition no_keys : config := Config None None None.

Definition paris_geocode : json :=
  JObj [("status", JStr "OK");
        ("results", JArr [JObj [("geometry",
           JObj [("location", JObj [("lat", JInt 49); ("lng", JInt 2)])])]])].

Definition forecast_day (conditions high_f high_c low_f low_c : string) : json :=
  JObj [("conditions", JStr conditions);
        ("high", JObj [("fahrenheit", JStr high_f); ("celsius", JStr high_c)]);
        ("low", JObj [("fahrenheit", JStr low_f); ("celsius", JStr low_c)])].

Definition two_days : json :=
  JArr [forecast_day "Clear" "70" "21" "52" "11";
        forecast_day "Rain" "64" "18" "50" "10"].

(** A response of the weather API with the given forecast list and
    observation URL. *)
Definition paris_weather (forecastday : json) (ob_url : string) : json :=
  JObj [("response", JObj [("version", JStr "0.1")]);
        ("forecast", JObj [("simpleforecast", JObj [("forecastday", forecastday)])]);
        ("current_observation",
         JObj [("display_location", JObj [("full", JStr "Paris, France")]);
               ("weather", JStr "Clear");
               ("temp_f", JInt 68); ("temp_c", JInt 20);
               ("relative_humidity", JStr "40%");
               ("wind_kph", JInt 8); ("wind_mph", JInt 5); ("wind_dir", JStr "NW");
               ("ob_url", JStr ob_url);
               ("forecast_url", JStr "http://www.wunderground.com/global/stations/07156.html")])].

(** A world in which both services answer, the shortener prefixes what it is
    given. *)
Definition demo_world (forecastday : json) (ob_url : string) : world :=
  World (λ url params,
           if String.eqb url geocode_api then Body paris_geocode
           else Body (paris_weather forecastday ob_url))
        (λ url, match url with JStr u => JStr ("https://is.gd/" +:+ u) | _ => url end).

(** A run on a response whose observation URL is the placeholder one. *)
Definition placeholder_url : string :=
  "http://www.wunderground.com/cgi-bin/findweather/getForecast?query=,".

Definition placeholder_run : outcome result * state :=
  get_weather_data (H := ascii_runtime) (demo_world two_days placeholder_url) demo_cfg
    "Paris" "alice" "EN" demo_start.

Definition placeholder_record : list (string * json) :=
  match fst placeholder_run with
  | Ret (RDict d) => d
  | _ => []
  end.

(** ** Further vocabulary *)

(** The [params] dictionary that [find_location] sends. *)
Definition geocode_params (cfg : config) (location : string)
    : list (string * option string) :=
  let params := [("address", Some location); ("key", dev_key cfg)] in
  if str_truthy (bias cfg) then params ++ [("region", bias cfg)] else params.

(** What a failed [requests.get(...)], [raise_for_status()] or [.json()]
    raises. *)
Definition transport_error (reply : http_reply) : option exn :=
  match reply with
  | Unreachable => Some ConnectionError
  | BadStatus => Some HTTPError
  | NotJSON => Some JSONDecodeError
  | Body _ => None
  end.

(** The keys of the dictionary [get_weather_data] returns, in the order they
    are written. *)
Definition record_keys : list string :=
  ["place"; "conditions"; "temp_f"; "temp_c"; "humidity"; "wind_kph"; "wind_mph";
   "wind_direction"; "today_conditions"; "today_high_f"; "today_high_c";
   "today_low_f"; "today_low_c"; "tomorrow_conditions"; "tomorrow_high_f";
   "tomorrow_high_c"; "tomorrow_low_f"; "tomorrow_low_c"; "url"].

(** The replacement fields of a template. *)
Fixpoint fields (template : list segment) : list string :=
  match template with
  | [] => []
  | Lit _ :: template' => fields template'
  | Field name :: template' => name :: fields template'
  end.

(** The value stored under [key] in the record is what [source] read from
    the response. *)
Definition record_field (d : list (string * json)) (key : string)
    (source : outcome json) : Prop :=
  ∃ v, source = Ret v ∧ assoc key d = Some v.

(** How the body of [get_weather_data] ends once [location] is bound: it
    stops with an exception or a message, having only added events; or it has
    the record and, the text being empty, returns it; or it has the record
    and calls [set_location], which returns or raises. *)
Inductive weather_at_end `{PyRuntime} (text nick location : string) (st : state)
    : outcome result → state → Prop :=
  | at_stopped events r :
      (∀ d, r ≠ Ret (RDict d)) →
      weather_at_end text nick location st r (with_log st events)
  | at_record_kept events d :
      text = "" → d.*1 = record_keys →
      weather_at_end text nick location st (Ret (RDict d)) (with_log st events)
  | at_record_stored events d st' :
      text ≠ "" → d.*1 = record_keys →
      set_location nick location (with_log st events) = (Ret (), st') →
      weather_at_end text nick location st (Ret (RDict d)) st'
  | at_store_rejected events e st' :
      text ≠ "" →
      set_location nick location (with_log st events) = (Raise e, st') →
      weather_at_end text nick location st (Raise e) st'.

(** ** More data for the examples *)

(** The dictionary misses a row that is in the table. *)
Definition behind_state : state :=
  State ∅ [("alice", "paris, france")] [("alice", "paris, france")] [].

(** The table holds an empty location for alice. *)
Definition blank_start : state := snd (on_start (fresh [("alice", "")] [])).

(** A geocode answer with the given status and candidates. *)
Definition geocode_answer (status : string) (results : list json) : json :=
  JObj [("status", JStr status); ("results", JArr results)].

Definition candidate (lat lng : Z) : json :=
  JObj [("geometry", JObj [("location", JObj [("lat", JInt lat); ("lng", JInt lng)])])].

(** A world whose geocoder gives [reply] and whose weather API gives
    [response]. *)
Definition world_of (reply : http_reply) (response : http_reply) : world :=
  World (λ url params, if String.eqb url geocode_api then reply else response)
        (λ url, url).

(** A response carrying an error object. *)
Definition error_response : json :=
  JObj [("response",
         JObj [("error", JObj [("type", JStr "querynotfound");
                               ("description", JStr "No cities match your search query")])])].

(** ** The cache and the table *)

Lemma for_each_cache_store (rows : list row) (st : state) :
  for_each (λ r : row, let nick := fst r in let location := snd r in
                       cache_store nick location) rows st
  = (Ret (), State (loaded (location_cache st) rows) (pending st) (durable st) (log st)).
Proof.
  revert st. induction rows as [|r rows IH]; intros st.
  - by destruct st.
  - simpl. unfold mbind, M_bind. simpl. by rewrite IH.
Qed.

Lemma load_cache_run (st : state) :
  load_cache st
  = (Ret (), State (loaded (location_cache st) (pending st)) (pending st) (durable st)
                   (log st ++ [EvSelect])).
Proof.
  unfold load_cache, mbind, M_bind. simpl. by rewrite for_each_cache_store.
Qed.

Lemma loaded_union (cache : gmap string string) (rows : list row) :
  primary_key rows → loaded cache rows = list_to_map rows ∪ cache.
Proof.
  unfold primary_key, loaded. revert cache.
  induction rows as [|[k v] rows IH]; intros cache Hnd; csimpl in *.
  - by rewrite (left_id ∅ (∪)).
  - apply NoDup_cons in Hnd as [Hk Hnd]. rewrite IH by done.
    rewrite <- insert_union_l. rewrite <- insert_union_r; [done|].
    by apply not_elem_of_list_to_map_1.
Qed.

Lemma union_covered (m' m : gmap string string) :
  (∀ k, is_Some (m !! k) → is_Some (m' !! k)) → m' ∪ m = m'.
Proof.
  intros Hdom. apply map_eq. intros k. rewrite lookup_union.
  destruct (m' !! k) as [v'|] eqn:E', (m !! k) as [v|] eqn:E; simpl; try done.
  destruct (Hdom k) as [? ?]; [by rewrite E | congruence].
Qed.

Lemma updated_keys loc n rows : (updated loc n rows).*1 = rows.*1.
Proof.
  unfold updated. induction rows as [|[k v] rows IH]; csimpl; [done|].
  rewrite IH. by destruct (String.eqb k n).
Qed.

Lemma updated_absent loc n rows : n ∉ rows.*1 → updated loc n rows = rows.
Proof.
  unfold updated. induction rows as [|[k v] rows IH]; csimpl; [done|]. intros Hn.
  apply not_elem_of_cons in Hn as [Hne Hn]. rewrite IH by done.
  destruct (String.eqb_spec k n); [congruence | done].
Qed.

Lemma updated_map loc n rows :
  primary_key rows → n ∈ rows.*1 →
  list_to_map (updated loc n rows) = <[n := loc]> (list_to_map rows : gmap string string).
Proof.
  unfold primary_key. induction rows as [|[k v] rows IH]; csimpl; intros Hnd Hn.
  - by apply elem_of_nil in Hn.
  - apply NoDup_cons in Hnd as [Hk Hnd].
    destruct (String.eqb_spec k n) as [->|Hne]; simpl.
    + fold (updated loc n rows). rewrite updated_absent by done.
      by rewrite insert_insert_eq.
    + apply elem_of_cons in Hn as [Hn|Hn]; [congruence|].
      fold (updated loc n rows). rewrite (IH Hnd Hn). by apply insert_insert_ne.
Qed.

Lemma existsb_key n (rows : list row) :
  existsb (λ r : row, String.eqb (fst r) n) rows = bool_decide (n ∈ rows.*1).
Proof.
  induction rows as [|[k v] rows IH]; csimpl; [done|]. rewrite IH.
  destruct (String.eqb_spec k n) as [->|Hne]; simpl.
  - symmetry. apply bool_decide_eq_true. by left.
  - apply bool_decide_ext. rewrite elem_of_cons.
    split; [by right | by intros [Heq|Hin]; [congruence|]].
Qed.

Section Cache.
Context `{PyRuntime}.

(** The three ways [set_location] can go, by what the dictionary and the
    table hold for the lower-cased nick. *)
Lemma set_location_update nick location st :
  is_Some (location_cache st !! str_lower nick) →
  let rows := updated (str_lower location) (str_lower nick) (pending st) in
  set_location nick location st
  = (Ret (), State (loaded (location_cache st) rows) rows rows
                   (log st ++ [EvExecute (Update (str_lower location) (str_lower nick));
                               EvCommit; EvSelect])).
Proof.
  intros Hin rows. unfold set_location, mbind, M_bind, get_state.
  rewrite bool_decide_eq_true_2 by done. simpl.
  rewrite load_cache_run. simpl. by rewrite <- !(assoc_L (++)).
Qed.

Lemma set_location_insert nick location st :
  location_cache st !! str_lower nick = None →
  str_lower nick ∉ (pending st).*1 →
  let rows := pending st ++ [(str_lower nick, str_lower location)] in
  set_location nick location st
  = (Ret (), State (loaded (location_cache st) rows) rows rows
                   (log st ++ [EvExecute (Insert (str_lower nick) (str_lower location));
                               EvCommit; EvSelect])).
Proof.
  intros Hout Hkey rows. unfold set_location, mbind, M_bind, get_state.
  rewrite bool_decide_eq_false_2 by (rewrite Hout; by intros [? ?]). simpl.
  rewrite existsb_key, bool_decide_eq_false_2 by done.
  rewrite load_cache_run. simpl. by rewrite <- !(assoc_L (++)).
Qed.

Lemma set_location_conflict nick location st :
  location_cache st !! str_lower nick = None →
  str_lower nick ∈ (pending st).*1 →
  set_location nick location st
  = (Raise IntegrityError,
     State (location_cache st) (pending st) (durable st)
           (log st ++ [EvExecute (Insert (str_lower nick) (str_lower location))])).
Proof.
  intros Hout Hkey. unfold set_location, mbind, M_bind, get_state.
  rewrite bool_decide_eq_false_2 by (rewrite Hout; by intros [? ?]). simpl.
  by rewrite existsb_key, bool_decide_eq_true_2.
Qed.

Lemma in_sync_key st n :
  in_sync st → is_Some (location_cache st !! n) ↔ n ∈ (pending st).*1.
Proof.
  intros (Hpk & _ & ->). split.
  - intros [l Hl]. apply elem_of_list_to_map_2 in Hl.
    apply list_elem_of_fmap. by exists (n, l).
  - intros Hn. destruct (list_to_map (pending st) !! n) as [l|] eqn:E; [by eexists|].
    by apply (not_elem_of_list_to_map_2 (M := gmap string)) in E.
Qed.

(** From a state in which the dictionary copies the table, [set_location]
    returns, and leaves the table with the new row and the dictionary a
    copy of the table again. *)
Lemma set_location_in_sync nick location st :
  in_sync st →
  ∃ st', set_location nick location st = (Ret (), st') ∧ in_sync st' ∧
         location_cache st' !! str_lower nick = Some (str_lower location) ∧
         location_cache st' = loaded (location_cache st) (durable st') ∧
         ∃ s, log st' = log st ++ [EvExecute s; EvCommit; EvSelect].
Proof.
  intros Hsync. pose proof Hsync as (Hpk & Hdur & Hcache).
  destruct (location_cache st !! str_lower nick) as [old|] eqn:E.
  - assert (str_lower nick ∈ (pending st).*1) as Hkey
      by (apply in_sync_key; [done | by rewrite E]).
    eexists. split; [apply set_location_update; by rewrite E|]. simpl.
    assert (primary_key (updated (str_lower location) (str_lower nick) (pending st)))
      as Hpk' by (unfold primary_key; by rewrite updated_keys).
    rewrite loaded_union by done. rewrite updated_map by done.
    rewrite Hcache, <- insert_union_l, (idemp_L (∪) (list_to_map (pending st) : gmap string string)).
    split_and!.
    + unfold in_sync; simpl. split_and!; [done|done|]. by rewrite updated_map.
    + by rewrite lookup_insert_eq.
    + done.
    + by eexists.
  - assert (str_lower nick ∉ (pending st).*1) as Hkey
      by (intros Hk; apply in_sync_key in Hk; [|done]; rewrite E in Hk; by destruct Hk).
    eexists. split; [by apply set_location_insert|]. simpl.
    assert (primary_key (pending st ++ [(str_lower nick, str_lower location)])) as Hpk'.
    { unfold primary_key. rewrite fmap_app. apply NoDup_app. split_and!; [done| |].
      - intros k Hk Hk'. apply list_elem_of_singleton in Hk'. by subst.
      - apply NoDup_singleton. }
    rewrite loaded_union by done. rewrite union_covered.
    + split_and!; [done| |done|by eexists].
      apply elem_of_list_to_map_1; [exact Hpk'|].
      apply elem_of_app. right. by apply list_elem_of_singleton.
    + intros k. rewrite Hcache. intros [v Hv]. exists v.
      apply elem_of_list_to_map_1; [exact Hpk'|].
      apply elem_of_app. left. by apply elem_of_list_to_map_2.
Qed.

Lemma load_cache_in_sync st : in_sync st → in_sync (snd (load_cache st)).
Proof.
  intros (Hpk & Hdur & Hcache). rewrite load_cache_run. simpl.
  repeat split; try done.
  rewrite loaded_union by done. by rewrite Hcache, (idemp_L (∪) (list_to_map (pending st) : gmap string string)).
Qed.

Lemma reachable_in_sync st : reachable st → in_sync st.
Proof.
  induction 1 as [rows events Hpk|st o Hreach IH].
  - unfold on_start. rewrite load_cache_run. simpl. repeat split; try done.
    simpl. rewrite loaded_union by done. by rewrite (right_id_L ∅ (∪)).
  - destruct o as [|nick|nick location]; simpl.
    + by apply load_cache_in_sync.
    + by destruct IH as (? & ? & ?).
    + destruct (set_location_in_sync nick location st IH) as (st' & -> & ? & _). done.
Qed.

End Cache.

Lemma demo_start_reachable : reachable (H := ascii_runtime) demo_start.
Proof. apply reach_start. unfold primary_key. csimpl. apply NoDup_singleton. Defined.

(** C1. From any state reached after [on_start], [set_location nick location]
    returns, and a following [get_location u], for any [u] that lower-cases
    to the same string as [nick], returns the lower-cased [location]. *)
Theorem set_then_get `{PyRuntime} (st : state) (nick location u : string) :
  reachable st →
  str_lower u = str_lower nick →
  ∃ st' st'',
    set_location nick location st = (Ret (), st') ∧
    get_location u st' = (Ret (Some (str_lower location)), st'').
Proof.
  intros Hreach Hu. apply reachable_in_sync in Hreach.
  destruct (set_location_in_sync nick location st Hreach) as (st' & Hset & _ & Hget & _).
  exists st'. eexists. split; [exact Hset|].
  unfold get_location. by rewrite Hu, Hget.
Qed.

Lemma set_then_get_witness :
  ∃ st' st'',
    set_location (H := ascii_runtime) "Bob" "Oslo, Norway" demo_start = (Ret (), st') ∧
    get_location (H := ascii_runtime) "BOB" st' = (Ret (Some "oslo, norway"), st'').
Proof.
  apply (set_then_get (H := ascii_runtime) demo_start "Bob" "Oslo, Norway" "BOB").
  - exact demo_start_reachable.
  - reflexivity.
Defined.

(** C2, as stated, fails: an entry of the dictionary whose nick has no row
    in the table is still there after [load_cache], so the dictionary is not
    the set of rows. *)
Lemma load_cache_keeps_stale_entry :
  primary_key (pending stale_state) ∧
  location_cache (snd (load_cache stale_state)) !! "ghost" = Some "atlantis" ∧
  location_cache (snd (load_cache stale_state))
  ≠ (list_to_map (pending stale_state) : gmap string string).
Proof.
  split_and!.
  - apply NoDup_nil_2.
  - reflexivity.
  - intros Heq. apply (f_equal (λ m : gmap string string, m !! "ghost")) in Heq.
    discriminate Heq.
Qed.

(** C2, amended. [load_cache] returns, reads every row and writes each into
    the dictionary: afterwards every row of the table is in the dictionary
    with the table's value, and the entries whose nick is not in the table
    are the ones that were there before; the table is not changed. *)
Theorem load_cache_merges (st : state) :
  primary_key (pending st) →
  ∃ st',
    load_cache st = (Ret (), st') ∧
    pending st' = pending st ∧ durable st' = durable st ∧
    log st' = log st ++ [EvSelect] ∧
    (∀ n l, (n, l) ∈ pending st → location_cache st' !! n = Some l) ∧
    (∀ n, n ∉ (pending st).*1 → location_cache st' !! n = location_cache st !! n).
Proof.
  intros Hpk. eexists. split; [apply load_cache_run|]. simpl.
  rewrite loaded_union by done. split_and!; try done.
  - intros n l Hin. apply lookup_union_Some_l. by apply elem_of_list_to_map_1.
  - intros n Hn. apply lookup_union_r. by apply not_elem_of_list_to_map_1.
Qed.

Lemma load_cache_merges_witness :
  ∃ st',
    load_cache stale_state = (Ret (), st') ∧
    pending st' = pending stale_state ∧ durable st' = durable stale_state ∧
    log st' = log stale_state ++ [EvSelect] ∧
    (∀ n l, (n, l) ∈ pending stale_state → location_cache st' !! n = Some l) ∧
    (∀ n, n ∉ (pending stale_state).*1 →
          location_cache st' !! n = location_cache stale_state !! n).
Proof. apply (load_cache_merges stale_state). apply NoDup_nil_2. Defined.

(** C3. From any state reached after [on_start], [set_location] returns; the
    last three things it does are the statement, the commit and the SELECT of
    the reload; the dictionary it leaves is the one obtained by writing every
    row of the committed table into it; and every row of the committed table
    is then in the dictionary with its value. *)
Theorem set_location_reloads `{PyRuntime} (st : state) (nick location : string) :
  reachable st →
  ∃ st' s,
    set_location nick location st = (Ret (), st') ∧
    log st' = log st ++ [EvExecute s; EvCommit; EvSelect] ∧
    pending st' = durable st' ∧
    location_cache st' = loaded (location_cache st) (durable st') ∧
    consistent st'.
Proof.
  intros Hreach. apply reachable_in_sync in Hreach.
  destruct (set_location_in_sync nick location st Hreach)
    as (st' & Hset & (Hpk & Hdur & Hcache) & _ & Hload & s & Hlog).
  exists st', s. split_and!; try done.
  intros n l Hin. rewrite Hcache. apply elem_of_list_to_map_1; [done|]. by rewrite <- Hdur.
Qed.

Lemma set_location_reloads_witness :
  ∃ st' s,
    set_location (H := ascii_runtime) "Alice" "Lyon" demo_start = (Ret (), st') ∧
    log st' = log demo_start ++ [EvExecute s; EvCommit; EvSelect] ∧
    pending st' = durable st' ∧
    location_cache st' = loaded (location_cache demo_start) (durable st') ∧
    consistent st'.
Proof.
  apply (set_location_reloads (H := ascii_runtime) demo_start "Alice" "Lyon").
  exact demo_start_reachable.
Defined.

(** ** Running the pipeline *)

Lemma with_log_with_log st a b : with_log (with_log st a) b = with_log st (a ++ b).
Proof. unfold with_log. simpl. by rewrite <- (assoc_L (++)). Qed.

Lemma with_log_nil st : with_log st [] = st.
Proof. destruct st. unfold with_log. simpl. by rewrite app_nil_r. Qed.

Lemma requests_get_run w url params st :
  requests_get w url params st
  = (match http w url params with
     | Unreachable => Raise ConnectionError
     | BadStatus => Raise HTTPError
     | NotJSON => Raise JSONDecodeError
     | Body j => Ret j
     end, with_log st [EvGet url params]).
Proof.
  unfold requests_get, mbind, M_bind, emit. by destruct (http w url params).
Qed.

(** [find_location] makes one call, to the geocode API, and changes nothing
    else. *)
Lemma find_location_run w cfg location st :
  ∃ g, is_geocode_call g ∧ snd (find_location w cfg location st) = with_log st [g].
Proof.
  unfold find_location. set (params := if str_truthy (bias cfg) then _ else _).
  exists (EvGet geocode_api params). split; [by eexists|].
  unfold mbind, M_bind. rewrite requests_get_run.
  destruct (http w geocode_api params) as [| | |j]; try reflexivity.
  unfold lift, raise.
  destruct (getitem j "status") as [status|]; [|reflexivity].
  destruct (negb (eq_str status "OK")); [reflexivity|].
  destruct (getitem j "results") as [results|]; [|reflexivity].
  destruct (getindex results 0) as [first|]; [|reflexivity].
  destruct (getitem first "geometry") as [geometry|]; [|reflexivity].
  by destruct (getitem geometry "location").
Qed.

(** [set_location] either runs its statement, commits and reloads, or is
    stopped by the primary key with nothing changed. *)
Lemma set_location_run `{PyRuntime} nick location st :
  ∃ s, (∃ st', set_location nick location st = (Ret (), st') ∧
               log st' = log st ++ [EvExecute s; EvCommit; EvSelect])
       ∨ set_location nick location st = (Raise IntegrityError, with_log st [EvExecute s]).
Proof.
  destruct (location_cache st !! str_lower nick) as [old|] eqn:E.
  - eexists. left. eexists. split; [apply set_location_update; by rewrite E|]. done.
  - destruct (decide (str_lower nick ∈ (pending st).*1)) as [Hin|Hout].
    + eexists. right. by apply set_location_conflict.
    + eexists. left. eexists. split; [by apply set_location_insert|]. done.
Qed.

Lemma geocode_call_is_not_fetch e : is_geocode_call e → ¬ is_fetch_call e.
Proof. intros [params ->] (key & language & location & Heq). discriminate Heq. Qed.

(** Stepping through a run kept in a hypothesis [Hrun : body st = (r, st')]:
    [next_lookup] splits on the next [x[...]] that can raise, [run_ends]
    closes the case where the run stops there. *)
Ltac next_lookup Hrun :=
  match type of Hrun with
  | context [match ?o with Ret _ => _ | Raise _ => _ end] =>
      let E := fresh "E" in destruct o eqn:E; cbv beta iota in Hrun
  end.

Ltac run_ends Hrun :=
  injection Hrun as <- <-; rewrite ?with_log_with_log; simpl app;
  econstructor; eauto.

Ltac lookups Hrun := repeat (next_lookup Hrun; [|by run_ends Hrun]).

Lemma weather_at_shape `{PyRuntime} w cfg text nick language location st :
  text ≠ "" →
  run_shape st (fst (weather_at w cfg text nick language location st))
               (snd (weather_at w cfg text nick language location st)).
Proof.
  intros Htext.
  destruct (weather_at w cfg text nick language location st) as [r st'] eqn:Hrun. simpl.
  unfold weather_at, mbind, M_bind in Hrun.
  destruct (find_location_run w cfg location st) as (g & Hg & Hst1).
  destruct (find_location w cfg location st) as [o st1]. simpl in Hst1. subst st1.
  destruct o as [location_data|e]; [|by run_ends Hrun].
  unfold lift, mret, M_ret in Hrun. cbv beta iota in Hrun.
  next_lookup Hrun; [|by run_ends Hrun].
  next_lookup Hrun; [|by run_ends Hrun].
  rewrite requests_get_run, with_log_with_log in Hrun. simpl app in Hrun.
  cbv beta iota in Hrun.
  match type of Hrun with context [EvGet ?u []] =>
    assert (is_fetch_call (EvGet u [])) as Hf by (by eexists _, _, _) end.
  lookups Hrun.
  destruct (truthy _); cbv beta iota in Hrun.
  { next_lookup Hrun; by run_ends Hrun. }
  next_lookup Hrun; [|by run_ends Hrun].
  destruct (negb (truthy _)); cbv beta iota in Hrun; [by run_ends Hrun|].
  lookups Hrun.
  match type of Hrun with context [if ?b then _ else _] => destruct b end;
    cbv beta iota in Hrun; [next_lookup Hrun; [|by run_ends Hrun]|].
  all: unfold emit in Hrun; rewrite with_log_with_log in Hrun; simpl app in Hrun.
  all: rewrite (proj2 (String.eqb_neq _ _) Htext) in Hrun.
  all: cbv beta iota delta [negb] in Hrun.
  all: match type of Hrun with context [set_location ?n ?l ?st2] =>
         destruct (set_location_run n l st2) as [s [(st3 & Hset & Hlog)|Hset]]
       end; rewrite Hset in Hrun; [|by run_ends Hrun].
  all: injection Hrun as <- <-; econstructor; eauto.
  all: rewrite Hlog; simpl; by rewrite <- (assoc_L (++)).
Qed.

(** C4. On a non-empty text, a run of [get_weather_data] has one of the
    shapes of [run_shape]: the geocode call comes first, the fetch second,
    and the statement of [set_location] is executed only after the record was
    built and its URL shortened; a run that does not return the record leaves
    the dictionary and the committed table as they were. *)
Theorem explicit_text_run `{PyRuntime} (w : world) (cfg : config) (st : state)
    (text nick language : string) :
  text ≠ "" →
  let run := get_weather_data w cfg text nick language st in
  run_shape st (fst run) (snd run) ∧
  ((∀ d, fst run ≠ Ret (RDict d)) →
   location_cache (snd run) = location_cache st ∧ durable (snd run) = durable st).
Proof.
  intros Htext run.
  assert (run_shape st (fst run) (snd run)) as Hshape.
  { subst run. unfold get_weather_data.
    destruct (negb (str_truthy (wunder_key cfg))); [constructor|].
    destruct (negb (str_truthy (dev_key cfg))); [constructor|].
    rewrite (proj2 (String.eqb_neq _ _) Htext). by apply weather_at_shape. }
  split; [done|]. intros Hfail.
  destruct Hshape; try done. by destruct (Hfail d).
Qed.

Lemma explicit_text_run_witness :
  let run := get_weather_data (H := ascii_runtime) (demo_world (JArr []) "") demo_cfg
               "Paris" "alice" "EN" demo_start in
  run_shape demo_start (fst run) (snd run) ∧
  ((∀ d, fst run ≠ Ret (RDict d)) →
   location_cache (snd run) = location_cache demo_start ∧
   durable (snd run) = durable demo_start).
Proof.
  apply (explicit_text_run (H := ascii_runtime) (demo_world (JArr []) "") demo_cfg
           demo_start "Paris" "alice" "EN").
  discriminate.
Defined.

(** C5. When the Weather Underground key, or else the Google key, is unset or
    empty, [get_weather_data] raises [APIKeyMissing] with the name of that
    provider and the state is untouched: no lookup, call or write is logged.
    [weather] returns the English message for that name and [meteo] the
    French one. *)
Theorem missing_key `{PyRuntime} (w : world) (cfg : config) (st : state)
    (text nick language : string) :
  ¬ configured cfg →
  ∃ name,
    (name = "Weather Underground" ∧ str_truthy (wunder_key cfg) = false
     ∨ name = "Google Developers Console" ∧ str_truthy (dev_key cfg) = false) ∧
    get_weather_data w cfg text nick language st = (Raise (APIKeyMissing name), st) ∧
    weather w cfg text nick st
    = (Ret (Some ("This command requires a " +:+ name +:+ " API key.")), st) ∧
    meteo w cfg text nick st
    = (Ret (Some ("Cette commande nécessite une clé API " +:+ name +:+ ".")), st).
Proof.
  intros Hcfg. unfold configured in Hcfg.
  destruct (str_truthy (wunder_key cfg)) eqn:Hw.
  - destruct (str_truthy (dev_key cfg)) eqn:Hd; [by destruct Hcfg|].
    exists "Google Developers Console". split; [by right|].
    unfold weather, meteo, try_except, mbind, M_bind, get_weather_data.
    by rewrite Hw, Hd.
  - exists "Weather Underground". split; [by left|].
    unfold weather, meteo, try_except, mbind, M_bind, get_weather_data.
    by rewrite Hw.
Qed.

Lemma missing_key_witness :
  ∃ name,
    (name = "Weather Underground" ∧ str_truthy (wunder_key no_keys) = false
     ∨ name = "Google Developers Console" ∧ str_truthy (dev_key no_keys) = false) ∧
    get_weather_data (H := ascii_runtime) (demo_world two_days "") no_keys "Paris" "alice" "FR"
      demo_start = (Raise (APIKeyMissing name), demo_start) ∧
    weather (H := ascii_runtime) (demo_world two_days "") no_keys "Paris" "alice" demo_start
    = (Ret (Some ("This command requires a " +:+ name +:+ " API key.")), demo_start) ∧
    meteo (H := ascii_runtime) (demo_world two_days "") no_keys "Paris" "alice" demo_start
    = (Ret (Some ("Cette commande nécessite une clé API " +:+ name +:+ ".")), demo_start).
Proof.
  apply (missing_key (H := ascii_runtime) (demo_world two_days "") no_keys demo_start
           "Paris" "alice" "FR").
  intros [Hw _]. discriminate Hw.
Defined.

(** C6. For the five statuses of the geocode API, [str(e)] and
    [e.en_francais()] are the fixed sentences; for any other status, [str(e)]
    is [repr(status)] and [e.en_francais()] ends with [repr(status)]. *)
Theorem geocode_error_renderings `{PyRuntime} :
  (GeocodeAPIError.__str__ (JStr "REQUEST_DENIED")
   = "The geocode API is off in the Google Developers Console." ∧
   GeocodeAPIError.__str__ (JStr "ZERO_RESULTS") = "No results found." ∧
   GeocodeAPIError.__str__ (JStr "OVER_QUERY_LIMIT") = "The geocode API quota has run out." ∧
   GeocodeAPIError.__str__ (JStr "UNKNOWN_ERROR") = "Unknown Error." ∧
   GeocodeAPIError.__str__ (JStr "INVALID_REQUEST") = "Invalid Request.") ∧
  (GeocodeAPIError.en_francais (JStr "REQUEST_DENIED")
   = "L'API de géocodage est désactivée dans la console des développeurs Google." ∧
   GeocodeAPIError.en_francais (JStr "ZERO_RESULTS") = "Aucun resultat n'a été trouvé." ∧
   GeocodeAPIError.en_francais (JStr "OVER_QUERY_LIMIT")
   = "Le quota de API de géocodage est épuisé." ∧
   GeocodeAPIError.en_francais (JStr "UNKNOWN_ERROR") = "Quelque chose a mal tourné." ∧
   GeocodeAPIError.en_francais (JStr "INVALID_REQUEST") = "Il y a eu une demande invalide.") ∧
  (∀ status : json,
     status ∉ [JStr "REQUEST_DENIED"; JStr "ZERO_RESULTS"; JStr "OVER_QUERY_LIMIT";
               JStr "UNKNOWN_ERROR"; JStr "INVALID_REQUEST"] →
     GeocodeAPIError.__str__ status = py_repr status ∧
     GeocodeAPIError.en_francais status = "La France a été trahie! " +:+ py_repr status).
Proof.
  split_and!; try reflexivity.
  intros status Hother.
  assert (∀ s, JStr s ∈ [JStr "REQUEST_DENIED"; JStr "ZERO_RESULTS"; JStr "OVER_QUERY_LIMIT";
                         JStr "UNKNOWN_ERROR"; JStr "INVALID_REQUEST"] →
               eq_str status s = false) as Hne.
  { intros s Hs. destruct status; try reflexivity. simpl.
    apply String.eqb_neq. intros ->. by apply Hother. }
  unfold GeocodeAPIError.__str__, GeocodeAPIError.en_francais.
  rewrite !Hne; [done|..]; set_solver.
Qed.

Lemma geocode_error_renderings_witness :
  GeocodeAPIError.__str__ (H := ascii_runtime) (JStr "MAX_ELEMENTS_EXCEEDED")
  = "'MAX_ELEMENTS_EXCEEDED'" ∧
  GeocodeAPIError.en_francais (H := ascii_runtime) (JStr "MAX_ELEMENTS_EXCEEDED")
  = "La France a été trahie! 'MAX_ELEMENTS_EXCEEDED'".
Proof.
  apply (proj2 (proj2 (geocode_error_renderings (H := ascii_runtime)))
           (JStr "MAX_ELEMENTS_EXCEEDED")).
  intros Hin. repeat (apply elem_of_cons in Hin as [Hin|Hin]; [discriminate Hin|]).
  by apply elem_of_nil in Hin.
Defined.

(** C8. With both keys set, an empty text and no location cached for the
    caller, [get_weather_data] looks the caller up, calls [notice_doc] once
    and returns [None]: these are the only two events, so nothing is
    geocoded, fetched or written, and the commands return [None] too. *)
Theorem no_location_known `{PyRuntime} (w : world) (cfg : config) (st : state)
    (nick language : string) :
  configured cfg →
  location_cache st !! str_lower nick = None →
  get_weather_data w cfg "" nick language st
  = (Ret RNone, with_log st [EvLookup nick; EvNotice]) ∧
  weather w cfg "" nick st = (Ret None, with_log st [EvLookup nick; EvNotice]) ∧
  meteo w cfg "" nick st = (Ret None, with_log st [EvLookup nick; EvNotice]).
Proof.
  intros [Hw Hd] Hnone.
  assert (∀ language, get_weather_data w cfg "" nick language st
                      = (Ret RNone, with_log st [EvLookup nick; EvNotice])) as Hrun.
  { intros l. unfold get_weather_data. rewrite Hw, Hd. simpl.
    unfold mbind, M_bind, get_location. rewrite Hnone. simpl.
    unfold notice_doc, emit. by rewrite with_log_with_log. }
  split; [apply Hrun|].
  unfold weather, meteo, try_except, mbind, M_bind. by rewrite !Hrun.
Qed.

Lemma no_location_known_witness :
  get_weather_data (H := ascii_runtime) (demo_world two_days "") demo_cfg "" "bob" "EN" demo_start
  = (Ret RNone, with_log demo_start [EvLookup "bob"; EvNotice]) ∧
  weather (H := ascii_runtime) (demo_world two_days "") demo_cfg "" "bob" demo_start
  = (Ret None, with_log demo_start [EvLookup "bob"; EvNotice]) ∧
  meteo (H := ascii_runtime) (demo_world two_days "") demo_cfg "" "bob" demo_start
  = (Ret None, with_log demo_start [EvLookup "bob"; EvNotice]).
Proof.
  apply (no_location_known (H := ascii_runtime) (demo_world two_days "") demo_cfg
           demo_start "bob" "EN").
  - split; reflexivity.
  - reflexivity.
Defined.

(** ** The fetch *)

Lemma append_cons c (s t : string) : String c s +:+ t = String c (s +:+ t).
Proof. reflexivity. Qed.

Lemma append_nil (t : string) : "" +:+ t = t.
Proof. reflexivity. Qed.

Lemma prefix_spec (p s : string) :
  String.prefix p s = true ↔ ∃ post, s = p +:+ post.
Proof.
  revert s. induction p as [|c p IH]; intros s.
  - split; [by exists s | by destruct s].
  - destruct s as [|c' s]; simpl.
    + split; [done | by intros [post Hpost]].
    + destruct (Ascii.ascii_dec c c') as [->|Hne].
      * rewrite IH. split; intros [post Hpost]; exists post;
          rewrite append_cons in *; congruence.
      * split; [done | intros [post Hpost]; rewrite append_cons in Hpost; congruence].
Qed.

(** [contains] is the substring test. *)
Lemma contains_spec (needle hay : string) :
  contains needle hay = true ↔ ∃ pre post, hay = pre +:+ needle +:+ post.
Proof.
  induction hay as [|c hay IH].
  - cbn [contains]. destruct (String.prefix needle "") eqn:E.
    + split; [|done]. intros _. apply prefix_spec in E as [post E]. by exists "", post.
    + split; [done|]. intros (pre & post & Heq).
      destruct pre; [|discriminate Heq]. rewrite append_nil in Heq.
      assert (String.prefix needle "" = true) as E' by (apply prefix_spec; by exists post).
      congruence.
  - cbn [contains]. destruct (String.prefix needle (String c hay)) eqn:E.
    + split; [|done]. intros _. apply prefix_spec in E as [post E]. by exists "", post.
    + rewrite IH. split.
      * intros (pre & post & ->). by exists (String c pre), post.
      * intros (pre & post & Heq). destruct pre as [|c' pre].
        -- rewrite append_nil in Heq.
           assert (String.prefix needle (String c hay) = true) as E'
             by (apply prefix_spec; by exists post).
           congruence.
        -- rewrite append_cons in Heq. injection Heq as _ ->. by exists pre, post.
Qed.

Lemma get_weather_data_located `{PyRuntime} w cfg st text nick language location st1 :
  configured cfg →
  located nick st text location st1 →
  get_weather_data w cfg text nick language st
  = weather_at w cfg text nick language location st1.
Proof.
  intros [Hw Hd] Hloc. unfold get_weather_data. rewrite Hw, Hd. simpl.
  destruct Hloc as [text Htext|location Hcached Hne].
  - by rewrite (proj2 (String.eqb_neq _ _) Htext).
  - simpl. unfold mbind, M_bind, get_location. rewrite Hcached. simpl.
    by rewrite (proj2 (String.eqb_neq _ _) Hne).
Qed.

(** The commands pass on a message, and let through what they do not catch. *)
Lemma weather_message `{PyRuntime} w cfg st text nick message st' :
  get_weather_data w cfg text nick "EN" st = (Ret (RStr message), st') →
  weather w cfg text nick st = (Ret (Some message), st').
Proof. intros Hrun. unfold weather, try_except, mbind, M_bind. by rewrite Hrun. Qed.

Lemma meteo_message `{PyRuntime} w cfg st text nick message st' :
  get_weather_data w cfg text nick "FR" st = (Ret (RStr message), st') →
  meteo w cfg text nick st
  = (Ret (Some (if String.eqb message "Unable to retrieve forecast data."
                then "Impossible de récupérer les données météorologiques."
                else message)), st').
Proof.
  intros Hrun. unfold meteo, try_except, mbind, M_bind. rewrite Hrun. simpl.
  by destruct (String.eqb message _).
Qed.

Lemma weather_index_error `{PyRuntime} w cfg st text nick st' :
  get_weather_data w cfg text nick "EN" st = (Raise IndexError, st') →
  weather w cfg text nick st = (Raise IndexError, st').
Proof. intros Hrun. unfold weather, try_except, mbind, M_bind. by rewrite Hrun. Qed.

Lemma meteo_index_error `{PyRuntime} w cfg st text nick st' :
  get_weather_data w cfg text nick "FR" st = (Raise IndexError, st') →
  meteo w cfg text nick st = (Raise IndexError, st').
Proof. intros Hrun. unfold meteo, try_except, mbind, M_bind. by rewrite Hrun. Qed.

(** A run up to the test of the forecast list, in the goal. *)
Ltac run_to_forecast Hfind Hlat Hlng Hhttp Hr Herror Hfalsy Hforecast :=
  unfold weather_at, mbind, M_bind; rewrite Hfind; unfold lift; cbv beta iota;
  rewrite Hlat, Hlng; cbv beta iota;
  rewrite requests_get_run, Hhttp; cbv beta iota;
  rewrite Hr, Herror; cbv beta iota; rewrite Hfalsy;
  unfold forecast_of in Hforecast; rewrite Hforecast; cbv beta iota.

Lemma weather_at_empty `{PyRuntime} w cfg text nick language location st1 st3 response :
  fetched w cfg language location st1 st3 response →
  no_error response →
  forecast_of response = Ret (JArr []) →
  weather_at w cfg text nick language location st1
  = (Ret (RStr "Unable to retrieve forecast data."), st3).
Proof.
  intros (location_data & st2 & lat & lng & Hfind & Hlat & Hlng & Hhttp & ->).
  intros (r & error & Hr & Herror & Hfalsy) Hforecast.
  run_to_forecast Hfind Hlat Hlng Hhttp Hr Herror Hfalsy Hforecast.
  reflexivity.
Qed.

Lemma weather_at_one_day `{PyRuntime} w cfg text nick language location st1 st3 response day :
  fetched w cfg language location st1 st3 response →
  no_error response →
  forecast_of response = Ret (JArr [day]) →
  weather_at w cfg text nick language location st1 = (Raise IndexError, st3).
Proof.
  intros (location_data & st2 & lat & lng & Hfind & Hlat & Hlng & Hhttp & ->).
  intros (r & error & Hr & Herror & Hfalsy) Hforecast.
  run_to_forecast Hfind Hlat Hlng Hhttp Hr Herror Hfalsy Hforecast.
  reflexivity.
Qed.

Lemma demo_fetched forecastday ob_url language :
  fetched (H := ascii_runtime) (demo_world forecastday ob_url) demo_cfg language "Paris"
    demo_start
    (with_log demo_start
       [EvGet geocode_api [("address", Some "Paris"); ("key", Some "google-key")];
        EvGet (wunder_api "wunder-key" language "49,2") []])
    (paris_weather forecastday ob_url).
Proof.
  exists (JObj [("lat", JInt 49); ("lng", JInt 2)]),
         (with_log demo_start
            [EvGet geocode_api [("address", Some "Paris"); ("key", Some "google-key")]]),
         (JInt 49), (JInt 2).
  split_and!; reflexivity.
Defined.

Lemma demo_no_error forecastday ob_url : no_error (paris_weather forecastday ob_url).
Proof. exists (JObj [("version", JStr "0.1")]), JNull. split_and!; reflexivity. Defined.

(** C7. When the forecast list of the response is empty, [get_weather_data]
    returns the string "Unable to retrieve forecast data." and raises
    nothing; [weather] returns that string and [meteo] the French sentence.
    [meteo] picks the French sentence by comparing the message with the
    English one: any other message is returned as it is. *)
Theorem empty_forecast `{PyRuntime} (w : world) (cfg : config) (st : state)
    (text nick language location : string) (st1 st3 : state) (response : json) :
  configured cfg →
  located nick st text location st1 →
  fetched w cfg language location st1 st3 response →
  no_error response →
  forecast_of response = Ret (JArr []) →
  get_weather_data w cfg text nick language st
  = (Ret (RStr "Unable to retrieve forecast data."), st3) ∧
  (language = "EN" →
   weather w cfg text nick st = (Ret (Some "Unable to retrieve forecast data."), st3)) ∧
  (language = "FR" →
   meteo w cfg text nick st
   = (Ret (Some "Impossible de récupérer les données météorologiques."), st3)) ∧
  (∀ message st',
     get_weather_data w cfg text nick "FR" st = (Ret (RStr message), st') →
     meteo w cfg text nick st
     = (Ret (Some (if String.eqb message "Unable to retrieve forecast data."
                   then "Impossible de récupérer les données météorologiques."
                   else message)), st')).
Proof.
  intros Hcfg Hloc Hfetched Hnoerr Hforecast.
  assert (get_weather_data w cfg text nick language st
          = (Ret (RStr "Unable to retrieve forecast data."), st3)) as Hrun.
  { rewrite (get_weather_data_located w cfg st text nick language location st1) by done.
    by apply (weather_at_empty w cfg text nick language location st1 st3 response). }
  split_and!.
  - exact Hrun.
  - intros ->. exact (weather_message w cfg st text nick _ st3 Hrun).
  - intros ->. exact (meteo_message w cfg st text nick _ st3 Hrun).
  - intros message st'. apply meteo_message.
Qed.

Lemma empty_forecast_witness :
  let st3 := with_log demo_start
       [EvGet geocode_api [("address", Some "Paris"); ("key", Some "google-key")];
        EvGet (wunder_api "wunder-key" "FR" "49,2") []] in
  get_weather_data (H := ascii_runtime) (demo_world (JArr []) "") demo_cfg "Paris" "alice" "FR"
    demo_start = (Ret (RStr "Unable to retrieve forecast data."), st3) ∧
  meteo (H := ascii_runtime) (demo_world (JArr []) "") demo_cfg "Paris" "alice" demo_start
  = (Ret (Some "Impossible de récupérer les données météorologiques."), st3).
Proof.
  intros st3.
  destruct (empty_forecast (H := ascii_runtime) (demo_world (JArr []) "") demo_cfg demo_start
              "Paris" "alice" "FR" "Paris" demo_start st3 (paris_weather (JArr []) ""))
    as (Hrun & _ & Hmeteo & _).
  - split; reflexivity.
  - by apply located_text.
  - apply demo_fetched.
  - apply demo_no_error.
  - reflexivity.
  - split; [exact Hrun | by apply Hmeteo].
Defined.

(** C10. The test for an empty forecast list is the only one on its length:
    when the list has exactly one entry, reading the second entry raises
    [IndexError], which [get_weather_data] lets out and neither command
    catches. So a run that returns at all, on a response whose forecast is a
    list, has a list that is empty or holds at least two entries. *)
Theorem one_forecast_day `{PyRuntime} (w : world) (cfg : config) (st : state)
    (text nick language location : string) (st1 st3 : state) (response : json)
    (days : list json) :
  configured cfg →
  located nick st text location st1 →
  fetched w cfg language location st1 st3 response →
  no_error response →
  forecast_of response = Ret (JArr days) →
  (length days = 1 →
   get_weather_data w cfg text nick language st = (Raise IndexError, st3) ∧
   (language = "EN" → weather w cfg text nick st = (Raise IndexError, st3)) ∧
   (language = "FR" → meteo w cfg text nick st = (Raise IndexError, st3))) ∧
  ((∃ r st', get_weather_data w cfg text nick language st = (Ret r, st')) →
   length days = 0 ∨ (2 ≤ length days)%nat).
Proof.
  intros Hcfg Hloc Hfetched Hnoerr Hforecast.
  assert (length days = 1 →
          get_weather_data w cfg text nick language st = (Raise IndexError, st3)) as Hrun.
  { intros Hone. destruct days as [|day [|? ?]]; try discriminate Hone.
    rewrite (get_weather_data_located w cfg st text nick language location st1) by done.
    by apply (weather_at_one_day w cfg text nick language location st1 st3 response day). }
  split.
  - intros Hone. specialize (Hrun Hone). split_and!.
    + exact Hrun.
    + intros ->. exact (weather_index_error w cfg st text nick st3 Hrun).
    + intros ->. exact (meteo_index_error w cfg st text nick st3 Hrun).
  - intros (r & st' & Hret). destruct days as [|day [|day' days]]; simpl.
    + by left.
    + rewrite Hrun in Hret by done. discriminate Hret.
    + right. lia.
Qed.

Lemma one_forecast_day_witness :
  let st3 := with_log demo_start
       [EvGet geocode_api [("address", Some "Paris"); ("key", Some "google-key")];
        EvGet (wunder_api "wunder-key" "EN" "49,2") []] in
  get_weather_data (H := ascii_runtime)
    (demo_world (JArr [forecast_day "Clear" "70" "21" "52" "11"]) "") demo_cfg
    "Paris" "alice" "EN" demo_start = (Raise IndexError, st3) ∧
  weather (H := ascii_runtime)
    (demo_world (JArr [forecast_day "Clear" "70" "21" "52" "11"]) "") demo_cfg
    "Paris" "alice" demo_start = (Raise IndexError, st3).
Proof.
  intros st3.
  destruct (one_forecast_day (H := ascii_runtime)
              (demo_world (JArr [forecast_day "Clear" "70" "21" "52" "11"]) "") demo_cfg
              demo_start "Paris" "alice" "EN" "Paris" demo_start st3
              (paris_weather (JArr [forecast_day "Clear" "70" "21" "52" "11"]) "")
              [forecast_day "Clear" "70" "21" "52" "11"])
    as [Hone _].
  - split; reflexivity.
  - by apply located_text.
  - apply demo_fetched.
  - apply demo_no_error.
  - reflexivity.
  - destruct (Hone eq_refl) as (Hrun & Hweather & _).
    split; [exact Hrun | by apply Hweather].
Defined.

(** C9. Whenever [get_weather_data] returns the record, the weather response
    has a [current_observation] with an [ob_url]; if "?query=," is in
    [ob_url] the URL chosen is the observation's [forecast_url], otherwise it
    is [ob_url] itself; the shortener is called on the chosen URL, and the
    record's "url" is what the shortener gave back. *)
Theorem url_selection `{PyRuntime} (w : world) (cfg : config) (st : state)
    (text nick language location : string) (st1 st3 : state) (response : json)
    (d : list (string * json)) (st' : state) :
  configured cfg →
  located nick st text location st1 →
  fetched w cfg language location st1 st3 response →
  get_weather_data w cfg text nick language st = (Ret (RDict d), st') →
  ∃ current_observation ob_url placeholder url,
    getitem response "current_observation" = Ret current_observation ∧
    getitem current_observation "ob_url" = Ret ob_url ∧
    py_in "?query=," ob_url = Ret placeholder ∧
    (∀ u, ob_url = JStr u →
          placeholder = true ↔ ∃ pre post, u = pre +:+ "?query=," +:+ post) ∧
    (if placeholder then getitem current_observation "forecast_url" = Ret url
     else url = ob_url) ∧
    assoc "url" d = Some (shorten w url) ∧
    ∃ events, log st' = log st3 ++ EvShorten url :: events.
Proof.
  intros Hcfg Hloc (location_data & st2 & lat & lng & Hfind & Hlat & Hlng & Hhttp & ->) Hrun.
  rewrite (get_weather_data_located w cfg st text nick language location st1) in Hrun by done.
  unfold weather_at, mbind, M_bind in Hrun. rewrite Hfind in Hrun.
  unfold lift, mret, M_ret in Hrun. cbv beta iota in Hrun.
  rewrite Hlat, Hlng in Hrun. cbv beta iota in Hrun.
  rewrite requests_get_run, Hhttp in Hrun. cbv beta iota in Hrun.
  repeat (next_lookup Hrun; [|discriminate Hrun]).
  destruct (truthy _); cbv beta iota in Hrun.
  { next_lookup Hrun; discriminate Hrun. }
  next_lookup Hrun; [|discriminate Hrun].
  destruct (negb (truthy _)); cbv beta iota in Hrun; [discriminate Hrun|].
  repeat (next_lookup Hrun; [|discriminate Hrun]).
  match goal with
  | Hco : getitem response "current_observation" = Ret ?co,
    Hob : getitem ?co "ob_url" = Ret ?ob,
    Hin : py_in "?query=," ?ob = Ret ?b |- _ =>
      assert (∃ url, (if b then getitem co "forecast_url" = Ret url else url = ob) ∧
                     assoc "url" d = Some (shorten w url) ∧
                     ∃ events, log st' = log (with_log st2 [EvGet (wunder_api
                       (default "" (wunder_key cfg)) language
                       (format_value lat +:+ "," +:+ format_value lng)) []])
                       ++ EvShorten url :: events) as (url & Hurl & Hd & Hlog);
      [|exists co, ob, b, url; split_and!; try done;
        intros u ->; simpl in Hin; injection Hin as <-; apply contains_spec]
  end.
  match type of Hrun with context [if ?b then _ else _] => destruct b end;
    cbv beta iota in Hrun; [next_lookup Hrun; [|discriminate Hrun]|].
  all: eexists; split; [done|].
  all: unfold emit in Hrun; rewrite with_log_with_log in Hrun; simpl app in Hrun.
  all: destruct (negb (text =? "")); cbv beta iota in Hrun.
  all: try match type of Hrun with context [set_location ?n ?l ?st2] =>
         destruct (set_location_run n l st2) as [s [(st4 & Hset & Hlog)|Hset]];
         rewrite Hset in Hrun; [|discriminate Hrun]
       end.
  all: injection Hrun as <- <-; split; [reflexivity|].
  all: try (exists [EvExecute s; EvCommit; EvSelect]; rewrite Hlog; simpl;
            by rewrite <- !(assoc_L (++))).
  all: exists []; simpl; by rewrite <- !(assoc_L (++)).
Qed.

Lemma placeholder_run_returns :
  placeholder_run = (Ret (RDict placeholder_record), snd placeholder_run).
Proof. vm_compute. reflexivity. Defined.

Lemma url_selection_witness :
  ∃ current_observation ob_url placeholder url,
    getitem (paris_weather two_days placeholder_url) "current_observation"
    = Ret current_observation ∧
    getitem current_observation "ob_url" = Ret ob_url ∧
    py_in "?query=," ob_url = Ret placeholder ∧
    (∀ u, ob_url = JStr u →
          placeholder = true ↔ ∃ pre post, u = pre +:+ "?query=," +:+ post) ∧
    (if placeholder then getitem current_observation "forecast_url" = Ret url
     else url = ob_url) ∧
    assoc "url" placeholder_record
    = Some (shorten (demo_world two_days placeholder_url) url) ∧
    ∃ events,
      log (snd placeholder_run)
      = log (with_log demo_start
               [EvGet geocode_api [("address", Some "Paris"); ("key", Some "google-key")];
                EvGet (wunder_api "wunder-key" "EN" "49,2") []])
        ++ EvShorten url :: events.
Proof.
  apply (url_selection (H := ascii_runtime) (demo_world two_days placeholder_url) demo_cfg
           demo_start "Paris" "alice" "EN" "Paris" demo_start _ _
           placeholder_record (snd placeholder_run)).
  - split; reflexivity.
  - by apply located_text.
  - apply demo_fetched.
  - exact placeholder_run_returns.
Defined.

(** ** Two runs, end to end *)

(** The placeholder URL is replaced by the forecast URL, shortened. *)
Example placeholder_record_url :
  assoc "url" placeholder_record
  = Some (JStr "https://is.gd/http://www.wunderground.com/global/stations/07156.html").
Proof. vm_compute. reflexivity. Qed.

(** [weather Paris] remembers the location, then replies with one line. *)
Example weather_paris :
  let run := weather (H := ascii_runtime) (demo_world two_days "http://wu.example/obs")
               demo_cfg "Paris" "Bob" demo_start in
  fst run = Ret None ∧
  location_cache (snd run) !! "bob" = Some "paris" ∧
  last (log (snd run))
  = Some (EvReply ("Paris, France - " +:+ bold +:+ "Current:" +:+ bold
           +:+ " Clear, 68F/20C, 40%, Wind: 5MPH/8KPH NW, "
           +:+ bold +:+ "Today:" +:+ bold +:+ " Clear, High: 70F/21C, Low: 52F/11C. "
           +:+ bold +:+ "Tomorrow:" +:+ bold +:+ " Rain, High: 64F/18C, Low: 50F/10C - "
           +:+ "https://is.gd/http://wu.example/obs")).
Proof. vm_compute. split_and!; reflexivity. Qed.

(** * Further properties *)

Set Warnings "-clear-no-such-hyp".

(** ** The cache *)

Lemma elem_of_updated loc n (rows : list row) k v :
  (k, v) ∈ updated loc n rows ↔
  (k = n ∧ v = loc ∧ n ∈ rows.*1) ∨ (k ≠ n ∧ (k, v) ∈ rows).
Proof.
  unfold updated. induction rows as [|[k' v'] rows IH]; csimpl.
  - rewrite !elem_of_nil. naive_solver.
  - rewrite !elem_of_cons, IH.
    destruct (String.eqb_spec k' n) as [->|Hne]; simpl; naive_solver.
Qed.

(** In a state where the dictionary copies the table, [set_location] is an
    insertion into the dictionary. *)
Lemma set_location_cache `{PyRuntime} nick location st :
  in_sync st →
  ∃ st', set_location nick location st = (Ret (), st') ∧ in_sync st' ∧
         location_cache st'
         = <[str_lower nick := str_lower location]> (location_cache st).
Proof.
  intros Hsync.
  destruct (set_location_in_sync nick location st Hsync)
    as (st' & Hset & Hsync' & Hget & _).
  exists st'. split_and!; [done|done|].
  destruct Hsync as (Hpk & Hdur & Hcache), Hsync' as (Hpk' & Hdur' & Hcache').
  apply map_eq. intros k. destruct (decide (k = str_lower nick)) as [->|Hk].
  - by rewrite Hget, lookup_insert_eq.
  - rewrite lookup_insert_ne by done. rewrite Hcache', Hcache.
    apply option_eq. intros v. rewrite <- !elem_of_list_to_map by done.
    destruct (location_cache st !! str_lower nick) as [old|] eqn:E.
    + rewrite set_location_update in Hset by (by rewrite E).
      injection Hset as <-. simpl. rewrite elem_of_updated. naive_solver.
    + assert (str_lower nick ∉ (pending st).*1) as Hkey
        by (intros Hin; apply in_sync_key in Hin; [|done]; rewrite E in Hin; by destruct Hin).
      rewrite set_location_insert in Hset by done.
      injection Hset as <-. simpl. rewrite elem_of_app, list_elem_of_singleton.
      naive_solver.
Qed.

(** X1. After [on_start] and any later operations, a nick that has no row in
    the table is unknown to [get_location]: it returns [None], and raises
    nothing. *)
Theorem get_location_unknown `{PyRuntime} (st : state) (u : string) :
  reachable st →
  str_lower u ∉ (durable st).*1 →
  get_location u st = (Ret None, with_log st [EvLookup u]).
Proof.
  intros Hreach Hrow. apply reachable_in_sync in Hreach as (Hpk & Hdur & Hcache).
  unfold get_location. rewrite Hcache.
  rewrite (not_elem_of_list_to_map_1 (M := gmap string)); [done|]. by rewrite <- Hdur.
Qed.

Lemma get_location_unknown_witness :
  get_location (H := ascii_runtime) "Carol" demo_start
  = (Ret None, with_log demo_start [EvLookup "Carol"]).
Proof.
  apply (get_location_unknown (H := ascii_runtime) demo_start "Carol").
  - exact demo_start_reachable.
  - vm_compute. intros Hin. apply list_elem_of_singleton in Hin. discriminate Hin.
Defined.

(** X2. [set_location] for one nick leaves what [get_location] answers for
    every other nick as it was. *)
Theorem set_location_others `{PyRuntime} (st : state) (nick location u : string) :
  reachable st →
  str_lower u ≠ str_lower nick →
  ∃ st', set_location nick location st = (Ret (), st') ∧
         fst (get_location u st') = fst (get_location u st).
Proof.
  intros Hreach Hu. apply reachable_in_sync in Hreach.
  destruct (set_location_cache nick location st Hreach) as (st' & Hset & _ & Hcache).
  exists st'. split; [done|]. unfold get_location. simpl.
  by rewrite Hcache, lookup_insert_ne.
Qed.

Lemma set_location_others_witness :
  ∃ st', set_location (H := ascii_runtime) "Bob" "Oslo" demo_start = (Ret (), st') ∧
         fst (get_location (H := ascii_runtime) "ALICE" st')
         = fst (get_location (H := ascii_runtime) "ALICE" demo_start).
Proof.
  apply (set_location_others (H := ascii_runtime) demo_start "Bob" "Oslo" "ALICE").
  - exact demo_start_reachable.
  - discriminate.
Defined.

(** X3. After [set_location] the committed table still has one row per nick;
    its row for the lower-cased nick holds the lower-cased location, and its
    other rows are those it had. *)
Theorem set_location_table `{PyRuntime} (st : state) (nick location : string) :
  reachable st →
  ∃ st', set_location nick location st = (Ret (), st') ∧
         primary_key (durable st') ∧
         ∀ k v, (k, v) ∈ durable st' ↔
                (k = str_lower nick ∧ v = str_lower location)
                ∨ (k ≠ str_lower nick ∧ (k, v) ∈ durable st).
Proof.
  intros Hreach. apply reachable_in_sync in Hreach.
  destruct (set_location_cache nick location st Hreach)
    as (st' & Hset & (Hpk' & Hdur' & Hcache') & Hcache).
  destruct Hreach as (Hpk & Hdur & Hcache0).
  exists st'. split_and!; [done|by rewrite Hdur'|].
  intros k v. rewrite Hdur', Hdur.
  rewrite (elem_of_list_to_map (M := gmap string) (pending st')) by done.
  rewrite (elem_of_list_to_map (M := gmap string) (pending st)) by done.
  rewrite <- Hcache', Hcache, <- Hcache0.
  destruct (decide (k = str_lower nick)) as [->|Hk].
  - rewrite lookup_insert_eq. naive_solver.
  - rewrite lookup_insert_ne by done. naive_solver.
Qed.

Lemma set_location_table_witness :
  ∃ st', set_location (H := ascii_runtime) "Alice" "Lyon" demo_start = (Ret (), st') ∧
         primary_key (durable st') ∧
         ∀ k v, (k, v) ∈ durable st' ↔
                (k = "alice" ∧ v = "lyon") ∨ (k ≠ "alice" ∧ (k, v) ∈ durable demo_start).
Proof.
  apply (set_location_table (H := ascii_runtime) demo_start "Alice" "Lyon").
  exact demo_start_reachable.
Defined.

(** X4. Loading twice is loading once: on a table with one row per nick, a
    second [load_cache] leaves the dictionary as the first one made it. *)
Theorem load_cache_twice (st : state) :
  primary_key (pending st) →
  location_cache (snd (load_cache (snd (load_cache st))))
  = location_cache (snd (load_cache st)).
Proof.
  intros Hpk. rewrite !load_cache_run. simpl. rewrite !loaded_union by done.
  rewrite (assoc_L (∪)). by rewrite (idemp_L (∪) (list_to_map (pending st) : gmap string string)).
Qed.

Lemma load_cache_twice_witness :
  location_cache (snd (load_cache (snd (load_cache behind_state))))
  = location_cache (snd (load_cache behind_state)).
Proof.
  apply (load_cache_twice behind_state). unfold primary_key. csimpl. apply NoDup_singleton.
Defined.

(** X5. A write that is lost: when the dictionary knows the nick but the
    table has no row for it, [set_location] issues an UPDATE that matches no
    row, returns normally, and the old location is still what
    [get_location] answers. *)
Theorem set_location_lost_update `{PyRuntime} (st : state) (nick location old : string) :
  primary_key (pending st) →
  location_cache st !! str_lower nick = Some old →
  str_lower nick ∉ (pending st).*1 →
  ∃ st', set_location nick location st = (Ret (), st') ∧
         pending st' = pending st ∧ durable st' = pending st ∧
         location_cache st' !! str_lower nick = Some old.
Proof.
  intros Hpk Hold Hrow. eexists. split; [apply set_location_update; by rewrite Hold|].
  simpl. rewrite updated_absent by done. split_and!; [done|done|].
  rewrite loaded_union by done. rewrite lookup_union_r; [done|].
  by apply not_elem_of_list_to_map_1.
Qed.

Lemma set_location_lost_update_witness :
  ∃ st', set_location (H := ascii_runtime) "Ghost" "Thule" stale_state = (Ret (), st') ∧
         pending st' = pending stale_state ∧ durable st' = pending stale_state ∧
         location_cache st' !! "ghost" = Some "atlantis".
Proof.
  apply (set_location_lost_update (H := ascii_runtime) stale_state "Ghost" "Thule" "atlantis").
  - apply NoDup_nil_2.
  - reflexivity.
  - apply not_elem_of_nil.
Defined.

(** X6. When the table has a row for the nick that the dictionary does not
    know, [set_location] issues an INSERT that the primary key rejects: it
    raises, and neither the table nor the dictionary changes. *)
Theorem set_location_rejected `{PyRuntime} (st : state) (nick location : string) :
  location_cache st !! str_lower nick = None →
  str_lower nick ∈ (pending st).*1 →
  ∃ st', set_location nick location st = (Raise IntegrityError, st') ∧
         location_cache st' = location_cache st ∧
         pending st' = pending st ∧ durable st' = durable st.
Proof.
  intros Hnone Hrow. eexists. split; [by apply set_location_conflict|]. done.
Qed.

Lemma set_location_rejected_witness :
  ∃ st', set_location (H := ascii_runtime) "Alice" "Lyon" behind_state
         = (Raise IntegrityError, st') ∧
         location_cache st' = location_cache behind_state ∧
         pending st' = pending behind_state ∧ durable st' = durable behind_state.
Proof.
  apply (set_location_rejected (H := ascii_runtime) behind_state "Alice" "Lyon").
  - reflexivity.
  - csimpl. apply list_elem_of_singleton. reflexivity.
Defined.

(** X7. [on_start], run on the freshly imported module, makes the dictionary
    exactly the table: a nick maps to a location when, and only when, that
    row is in the table. *)
Theorem on_start_exact (rows : list row) (events : list event) :
  primary_key rows →
  ∃ st', on_start (fresh rows events) = (Ret (), st') ∧
         ∀ n l, location_cache st' !! n = Some l ↔ (n, l) ∈ rows.
Proof.
  intros Hpk. unfold on_start. rewrite load_cache_run. eexists. split; [done|].
  intros n l. simpl. rewrite loaded_union by done. rewrite (right_id_L ∅ (∪)).
  symmetry. by apply elem_of_list_to_map.
Qed.

Lemma on_start_exact_witness :
  ∃ st', on_start (fresh demo_rows []) = (Ret (), st') ∧
         ∀ n l, location_cache st' !! n = Some l ↔ (n, l) ∈ demo_rows.
Proof.
  apply (on_start_exact demo_rows []). unfold primary_key. csimpl. apply NoDup_singleton.
Defined.

(** ** The pipeline *)

Ltac run_stops Hrun :=
  injection Hrun as <- <-; rewrite ?with_log_with_log; by apply at_stopped.

Lemma weather_at_cases `{PyRuntime} w cfg text nick language location st :
  weather_at_end text nick location st
    (fst (weather_at w cfg text nick language location st))
    (snd (weather_at w cfg text nick language location st)).
Proof.
  destruct (weather_at w cfg text nick language location st) as [r st'] eqn:Hrun. simpl.
  unfold weather_at, mbind, M_bind in Hrun.
  destruct (find_location_run w cfg location st) as (g & Hg & Hst1).
  destruct (find_location w cfg location st) as [o st1]. simpl in Hst1. subst st1.
  destruct o as [location_data|e]; [|by run_stops Hrun].
  unfold lift, mret, M_ret in Hrun. cbv beta iota in Hrun.
  next_lookup Hrun; [|by run_stops Hrun].
  next_lookup Hrun; [|by run_stops Hrun].
  rewrite requests_get_run, with_log_with_log in Hrun. simpl app in Hrun.
  cbv beta iota in Hrun.
  repeat (next_lookup Hrun; [|by run_stops Hrun]).
  destruct (truthy _); cbv beta iota in Hrun.
  { next_lookup Hrun; by run_stops Hrun. }
  next_lookup Hrun; [|by run_stops Hrun].
  destruct (negb (truthy _)); cbv beta iota in Hrun; [by run_stops Hrun|].
  repeat (next_lookup Hrun; [|by run_stops Hrun]).
  match type of Hrun with context [if ?b then _ else _] => destruct b end;
    cbv beta iota in Hrun; [next_lookup Hrun; [|by run_stops Hrun]|].
  all: unfold emit in Hrun; rewrite with_log_with_log in Hrun; simpl app in Hrun.
  all: destruct (String.eqb_spec text "") as [Htext|Htext];
    cbv beta iota delta [negb] in Hrun.
  all: try (injection Hrun as <- <-; by apply at_record_kept).
  all: match type of Hrun with context [set_location ?n ?l ?st2] =>
         destruct (set_location n l st2) as [[[]|e] st3] eqn:Hset
       end; injection Hrun as <- <-.
  all: try (by eapply at_record_stored).
  all: by eapply at_store_rejected.
Qed.

(** ** Geocoding *)

Lemma eq_str_false (status : json) (s : string) : status ≠ JStr s → eq_str status s = false.
Proof.
  intros Hne. destruct status; try reflexivity. simpl.
  apply String.eqb_neq. intros ->. by apply Hne.
Qed.

(** What [find_location] does with a decoded answer. *)
Lemma find_location_answer (w : world) (cfg : config) (location : string) (st : state)
    (j : json) :
  http w geocode_api (geocode_params cfg location) = Body j →
  find_location w cfg location st
  = (match getitem j "status" with
     | Raise e => Raise e
     | Ret status =>
         if eq_str status "OK" then
           match getitem j "results" with
           | Raise e => Raise e
           | Ret results =>
               match getindex results 0 with
               | Raise e => Raise e
               | Ret first => getpath first ["geometry"; "location"]
               end
           end
         else Raise (GeocodeAPIError status)
     end, with_log st [EvGet geocode_api (geocode_params cfg location)]).
Proof.
  intros Hhttp. unfold find_location, mbind, M_bind.
  change (if str_truthy (bias cfg) then _ else _) with (geocode_params cfg location).
  rewrite requests_get_run, Hhttp. unfold lift, raise. cbv beta iota.
  destruct (getitem j "status") as [status|]; [|done].
  destruct (eq_str status "OK"); [|done]. cbv beta iota delta [negb].
  destruct (getitem j "results") as [results|]; [|done].
  destruct (getindex results 0) as [first|]; [|done].
  unfold getpath. destruct (getitem first "geometry") as [geometry|]; [|done].
  by destruct (getitem geometry "location").
Qed.

(** X8. When the geocode API answers with a status other than "OK",
    [find_location] raises [GeocodeAPIError] carrying that status, after the
    one call it makes; the results are not looked at. *)
Theorem find_location_status (w : world) (cfg : config) (location : string) (st : state)
    (j status : json) :
  http w geocode_api (geocode_params cfg location) = Body j →
  getitem j "status" = Ret status →
  status ≠ JStr "OK" →
  find_location w cfg location st
  = (Raise (GeocodeAPIError status),
     with_log st [EvGet geocode_api (geocode_params cfg location)]).
Proof.
  intros Hhttp Hstatus Hne. rewrite (find_location_answer w cfg location st j Hhttp).
  by rewrite Hstatus, (eq_str_false status "OK" Hne).
Qed.

Lemma find_location_status_witness :
  find_location (world_of (Body (geocode_answer "OVER_QUERY_LIMIT" [])) Unreachable)
    demo_cfg "Paris" demo_start
  = (Raise (GeocodeAPIError (JStr "OVER_QUERY_LIMIT")),
     with_log demo_start [EvGet geocode_api (geocode_params demo_cfg "Paris")]).
Proof.
  apply (find_location_status
           (world_of (Body (geocode_answer "OVER_QUERY_LIMIT" [])) Unreachable)
           demo_cfg "Paris" demo_start (geocode_answer "OVER_QUERY_LIMIT" [])
           (JStr "OVER_QUERY_LIMIT")).
  - reflexivity.
  - reflexivity.
  - discriminate.
Defined.

(** X9. On status "OK", [find_location] answers from the first candidate
    only: the result is that candidate's [geometry][location] (or the
    KeyError of reading it), whatever candidates follow. *)
Theorem find_location_first_candidate (w : world) (cfg : config) (location : string)
    (st : state) (j first : json) (others : list json) :
  http w geocode_api (geocode_params cfg location) = Body j →
  getitem j "status" = Ret (JStr "OK") →
  getitem j "results" = Ret (JArr (first :: others)) →
  find_location w cfg location st
  = (getpath first ["geometry"; "location"],
     with_log st [EvGet geocode_api (geocode_params cfg location)]).
Proof.
  intros Hhttp Hstatus Hresults. rewrite (find_location_answer w cfg location st j Hhttp).
  by rewrite Hstatus, Hresults.
Qed.

Lemma find_location_first_candidate_witness :
  find_location
    (world_of (Body (geocode_answer "OK" [candidate 49 2; candidate 33 (-96)])) Unreachable)
    demo_cfg "Paris" demo_start
  = (getpath (candidate 49 2) ["geometry"; "location"],
     with_log demo_start [EvGet geocode_api (geocode_params demo_cfg "Paris")]).
Proof.
  apply (find_location_first_candidate
           (world_of (Body (geocode_answer "OK" [candidate 49 2; candidate 33 (-96)]))
                     Unreachable)
           demo_cfg "Paris" demo_start
           (geocode_answer "OK" [candidate 49 2; candidate 33 (-96)])
           (candidate 49 2) [candidate 33 (-96)]); reflexivity.
Defined.

(** X10. Status "OK" with an empty list of results is not treated as "no
    results": reading the first candidate raises [IndexError]. *)
Theorem find_location_no_candidate (w : world) (cfg : config) (location : string)
    (st : state) (j : json) :
  http w geocode_api (geocode_params cfg location) = Body j →
  getitem j "status" = Ret (JStr "OK") →
  getitem j "results" = Ret (JArr []) →
  find_location w cfg location st
  = (Raise IndexError, with_log st [EvGet geocode_api (geocode_params cfg location)]).
Proof.
  intros Hhttp Hstatus Hresults. rewrite (find_location_answer w cfg location st j Hhttp).
  by rewrite Hstatus, Hresults.
Qed.

Lemma find_location_no_candidate_witness :
  find_location (world_of (Body (geocode_answer "OK" [])) Unreachable)
    demo_cfg "Paris" demo_start
  = (Raise IndexError,
     with_log demo_start [EvGet geocode_api (geocode_params demo_cfg "Paris")]).
Proof.
  apply (find_location_no_candidate (world_of (Body (geocode_answer "OK" [])) Unreachable)
           demo_cfg "Paris" demo_start (geocode_answer "OK" [])); reflexivity.
Defined.

(** X11. A request that fails in transport (no connection, a status that
    [raise_for_status] rejects, a body that is not JSON) makes
    [find_location] raise that failure; it is not turned into a
    [GeocodeAPIError]. *)
Theorem find_location_transport (w : world) (cfg : config) (location : string)
    (st : state) (e : exn) :
  transport_error (http w geocode_api (geocode_params cfg location)) = Some e →
  find_location w cfg location st
  = (Raise e, with_log st [EvGet geocode_api (geocode_params cfg location)]) ∧
  ∀ status, e ≠ GeocodeAPIError status.
Proof.
  intros Herr. split.
  - unfold find_location, mbind, M_bind.
    change (if str_truthy (bias cfg) then _ else _) with (geocode_params cfg location).
    rewrite requests_get_run.
    destruct (http w geocode_api (geocode_params cfg location)); simpl in Herr;
      by simplify_eq.
  - intros status ->.
    destruct (http w geocode_api (geocode_params cfg location)); simpl in Herr;
      by simplify_eq.
Qed.

Lemma find_location_transport_witness :
  find_location (world_of BadStatus Unreachable) demo_cfg "Paris" demo_start
  = (Raise HTTPError,
     with_log demo_start [EvGet geocode_api (geocode_params demo_cfg "Paris")]) ∧
  ∀ status, HTTPError ≠ GeocodeAPIError status.
Proof.
  apply (find_location_transport (world_of BadStatus Unreachable) demo_cfg "Paris"
           demo_start HTTPError).
  reflexivity.
Defined.

(** ** The commands *)

Lemma in_sync_with_log st events : in_sync st → in_sync (with_log st events).
Proof. by intros (? & ? & ?). Qed.

Lemma assoc_is_Some {V : Type} (name : string) (d : list (string * V)) :
  name ∈ d.*1 → is_Some (assoc name d).
Proof.
  induction d as [|[k v] d IH]; csimpl.
  - by intros Hin%elem_of_nil.
  - intros Hin. destruct (String.eqb_spec name k) as [->|Hne]; [by eexists|].
    apply IH. apply elem_of_cons in Hin as [Heq|Hin]; [congruence|done].
Qed.

(** A template whose fields are all keys of [d] formats without error. *)
Lemma format_map_total `{PyRuntime} (template : list segment) (d : list (string * json)) :
  fields template ⊆ d.*1 → ∃ line, format_map template d = Ret line.
Proof.
  induction template as [|[s|name] template IH]; intros Hsub; simpl.
  - by eexists.
  - destruct (IH Hsub) as [rest ->]. by eexists.
  - simpl in Hsub.
    destruct (assoc_is_Some name d) as [v ->]; [apply Hsub; by left|].
    destruct IH as [rest ->]; [|by eexists].
    intros x Hx. apply Hsub. by right.
Qed.

Lemma templates_fields :
  fields weather_template ⊆ record_keys ∧ fields meteo_template ⊆ record_keys.
Proof.
  split; intros name Hin; vm_compute in Hin;
    repeat (apply elem_of_cons in Hin as [->|Hin];
            [by repeat (first [apply list_elem_of_here | apply list_elem_of_further])|]);
    by apply elem_of_nil in Hin.
Qed.

(** Where a run of [get_weather_data] that returned the record went. *)
Lemma get_weather_data_record `{PyRuntime} w cfg st text nick language d st' :
  get_weather_data w cfg text nick language st = (Ret (RDict d), st') →
  configured cfg ∧
  ∃ location st1, located nick st text location st1 ∧
                  weather_at w cfg text nick language location st1 = (Ret (RDict d), st').
Proof.
  unfold get_weather_data. intros Hrun.
  destruct (str_truthy (wunder_key cfg)) eqn:Hw; [|discriminate Hrun].
  destruct (str_truthy (dev_key cfg)) eqn:Hd; [|discriminate Hrun].
  split; [done|]. simpl in Hrun.
  destruct (String.eqb_spec text "") as [->|Htext].
  - unfold mbind, M_bind, get_location in Hrun.
    destruct (location_cache st !! str_lower nick) as [location|] eqn:Hcached;
      [|discriminate Hrun].
    simpl in Hrun. destruct (String.eqb_spec location "") as [->|Hne];
      [discriminate Hrun|].
    exists location, (with_log st [EvLookup nick]). split; [by constructor|done].
  - exists text, st. split; [by constructor|done].
Qed.

(** X12. A geocode status other than "OK" comes out of the commands as
    text: [weather] returns [str(e)] and [meteo] returns [e.en_francais()],
    after the geocode call and nothing else. *)
Theorem geocode_error_commands `{PyRuntime} (w : world) (cfg : config) (st : state)
    (text nick location : string) (st1 : state) (j status : json) :
  configured cfg →
  located nick st text location st1 →
  http w geocode_api (geocode_params cfg location) = Body j →
  getitem j "status" = Ret status →
  status ≠ JStr "OK" →
  weather w cfg text nick st
  = (Ret (Some (GeocodeAPIError.__str__ status)),
     with_log st1 [EvGet geocode_api (geocode_params cfg location)]) ∧
  meteo w cfg text nick st
  = (Ret (Some (GeocodeAPIError.en_francais status)),
     with_log st1 [EvGet geocode_api (geocode_params cfg location)]).
Proof.
  intros Hcfg Hloc Hhttp Hstatus Hne.
  assert (∀ language, get_weather_data w cfg text nick language st
            = (Raise (GeocodeAPIError status),
               with_log st1 [EvGet geocode_api (geocode_params cfg location)])) as Hrun.
  { intros language.
    rewrite (get_weather_data_located w cfg st text nick language location st1) by done.
    unfold weather_at, mbind, M_bind.
    rewrite (find_location_answer w cfg location st1 j Hhttp), Hstatus.
    by rewrite (eq_str_false status "OK" Hne). }
  unfold weather, meteo, try_except, mbind, M_bind. by rewrite !Hrun.
Qed.

Lemma geocode_error_commands_witness :
  weather (H := ascii_runtime) (world_of (Body (geocode_answer "ZERO_RESULTS" [])) Unreachable)
    demo_cfg "Nowhere" "alice" demo_start
  = (Ret (Some "No results found."),
     with_log demo_start [EvGet geocode_api (geocode_params demo_cfg "Nowhere")]) ∧
  meteo (H := ascii_runtime) (world_of (Body (geocode_answer "ZERO_RESULTS" [])) Unreachable)
    demo_cfg "Nowhere" "alice" demo_start
  = (Ret (Some "Aucun resultat n'a été trouvé."),
     with_log demo_start [EvGet geocode_api (geocode_params demo_cfg "Nowhere")]).
Proof.
  apply (geocode_error_commands (H := ascii_runtime)
           (world_of (Body (geocode_answer "ZERO_RESULTS" [])) Unreachable)
           demo_cfg demo_start "Nowhere" "alice" "Nowhere" demo_start
           (geocode_answer "ZERO_RESULTS" []) (JStr "ZERO_RESULTS")).
  - split; reflexivity.
  - by apply located_text.
  - reflexivity.
  - reflexivity.
  - discriminate.
Defined.

(** X13. The commands catch [APIKeyMissing] and [GeocodeAPIError] and
    nothing else: any other exception out of [get_weather_data] (a transport
    failure, a missing field, a rejected INSERT) leaves the command as it is,
    and nothing is replied. *)
Theorem commands_let_through `{PyRuntime} (w : world) (cfg : config) (st : state)
    (text nick : string) (e : exn) (st' : state) :
  (∀ name, e ≠ APIKeyMissing name) →
  (∀ status, e ≠ GeocodeAPIError status) →
  (get_weather_data w cfg text nick "EN" st = (Raise e, st') →
   weather w cfg text nick st = (Raise e, st')) ∧
  (get_weather_data w cfg text nick "FR" st = (Raise e, st') →
   meteo w cfg text nick st = (Raise e, st')).
Proof.
  intros Hkey Hgeo.
  split; intros Hrun; unfold weather, meteo, try_except, mbind, M_bind; rewrite Hrun;
    destruct e; try reflexivity; first [by destruct (Hgeo status) | by destruct (Hkey name)].
Qed.

Lemma commands_let_through_witness :
  weather (H := ascii_runtime) (world_of BadStatus Unreachable) demo_cfg "Paris" "alice"
    demo_start
  = (Raise HTTPError, with_log demo_start [EvGet geocode_api (geocode_params demo_cfg "Paris")]).
Proof.
  apply (commands_let_through (H := ascii_runtime) (world_of BadStatus Unreachable) demo_cfg
           demo_start "Paris" "alice" HTTPError).
  - discriminate.
  - discriminate.
  - reflexivity.
Defined.

(** X14. When the response carries an error object, [get_weather_data]
    returns its description as a message: the forecast is not read, nothing
    is stored, and [weather] returns the provider's words. *)
Theorem provider_error `{PyRuntime} (w : world) (cfg : config) (st : state)
    (text nick language location : string) (st1 st3 : state)
    (response r error description : json) :
  configured cfg →
  located nick st text location st1 →
  fetched w cfg language location st1 st3 response →
  getitem response "response" = Ret r →
  dict_get r "error" = Ret error →
  truthy error = true →
  getitem error "description" = Ret description →
  get_weather_data w cfg text nick language st
  = (Ret (RStr (format_value description)), st3) ∧
  (language = "EN" →
   weather w cfg text nick st = (Ret (Some (format_value description)), st3)).
Proof.
  intros Hcfg Hloc (location_data & st2 & lat & lng & Hfind & Hlat & Hlng & Hhttp & ->).
  intros Hr Herror Htruthy Hdescription.
  assert (get_weather_data w cfg text nick language st
          = (Ret (RStr (format_value description)),
             with_log st2 [EvGet (wunder_api (default "" (wunder_key cfg)) language
                                    (format_value lat +:+ "," +:+ format_value lng)) []]))
    as Hrun.
  { rewrite (get_weather_data_located w cfg st text nick language location st1) by done.
    unfold weather_at, mbind, M_bind. rewrite Hfind. unfold lift. cbv beta iota.
    rewrite Hlat, Hlng. cbv beta iota. rewrite requests_get_run, Hhttp. cbv beta iota.
    rewrite Hr, Herror. cbv beta iota. rewrite Htruthy. by rewrite Hdescription. }
  split; [exact Hrun|]. intros ->.
  exact (weather_message w cfg st text nick _ _ Hrun).
Qed.

Lemma provider_error_witness :
  let st3 := with_log demo_start
       [EvGet geocode_api (geocode_params demo_cfg "Paris");
        EvGet (wunder_api "wunder-key" "EN" "49,2") []] in
  get_weather_data (H := ascii_runtime)
    (world_of (Body paris_geocode) (Body error_response)) demo_cfg "Paris" "alice" "EN"
    demo_start
  = (Ret (RStr "No cities match your search query"), st3) ∧
  weather (H := ascii_runtime)
    (world_of (Body paris_geocode) (Body error_response)) demo_cfg "Paris" "alice" demo_start
  = (Ret (Some "No cities match your search query"), st3).
Proof.
  intros st3.
  destruct (provider_error (H := ascii_runtime)
              (world_of (Body paris_geocode) (Body error_response)) demo_cfg demo_start
              "Paris" "alice" "EN" "Paris" demo_start st3 error_response
              (JObj [("error", JObj [("type", JStr "querynotfound");
                       ("description", JStr "No cities match your search query")])])
              (JObj [("type", JStr "querynotfound");
                     ("description", JStr "No cities match your search query")])
              (JStr "No cities match your search query")) as [Hrun Hweather].
  - split; reflexivity.
  - by apply located_text.
  - exists (JObj [("lat", JInt 49); ("lng", JInt 2)]),
           (with_log demo_start [EvGet geocode_api (geocode_params demo_cfg "Paris")]),
           (JInt 49), (JInt 2).
    split_and!; reflexivity.
  - reflexivity.
  - reflexivity.
  - reflexivity.
  - reflexivity.
  - split; [exact Hrun | by apply Hweather].
Defined.

(** X15. A run on an empty text writes nothing: whatever the services
    answer, and whether it ends with a record, a message, [None] or an
    exception, the dictionary and the table are as they were. *)
Theorem empty_text_writes_nothing `{PyRuntime} (w : world) (cfg : config) (st : state)
    (nick language : string) :
  let run := get_weather_data w cfg "" nick language st in
  location_cache (snd run) = location_cache st ∧
  pending (snd run) = pending st ∧
  durable (snd run) = durable st.
Proof.
  intros run. subst run. unfold get_weather_data.
  destruct (negb (str_truthy (wunder_key cfg))); [done|].
  destruct (negb (str_truthy (dev_key cfg))); [done|].
  simpl. unfold mbind, M_bind, get_location. cbv beta iota.
  destruct (negb (str_truthy (location_cache st !! str_lower nick))); [done|].
  pose proof (weather_at_cases w cfg "" nick language
                (default "" (location_cache st !! str_lower nick))
                (with_log st [EvLookup nick])) as Hend.
  destruct (weather_at w cfg "" nick language _ _) as [r st']. simpl in Hend.
  destruct Hend; done.
Qed.

(** X16. The record [get_weather_data] returns has exactly the nineteen
    keys the templates use, so formatting cannot fail: the command replies
    with one line, after everything else, and returns [None]. *)
Theorem record_is_replied `{PyRuntime} (w : world) (cfg : config) (st : state)
    (text nick language : string) (d : list (string * json)) (st' : state) :
  get_weather_data w cfg text nick language st = (Ret (RDict d), st') →
  d.*1 = record_keys ∧
  (language = "EN" →
   ∃ line, weather w cfg text nick st = (Ret None, with_log st' [EvReply line])) ∧
  (language = "FR" →
   ∃ line, meteo w cfg text nick st = (Ret None, with_log st' [EvReply line])).
Proof.
  intros Hrun.
  assert (d.*1 = record_keys) as Hkeys.
  { destruct (get_weather_data_record w cfg st text nick language d st' Hrun)
      as (_ & location & st1 & _ & Hat).
    pose proof (weather_at_cases w cfg text nick language location st1) as Hend.
    rewrite Hat in Hend. simpl in Hend.
    inversion Hend as [events r Hno|events d' _ Hd|events d' st'' _ Hd _|]; subst;
      [by destruct (Hno d)|done|done]. }
  destruct templates_fields as [Hen Hfr]. rewrite <- Hkeys in Hen, Hfr.
  split_and!; [done| |]; intros ->.
  - destruct (format_map_total weather_template d Hen) as [line Hline]. exists line.
    unfold weather, try_except, mbind, M_bind, lift, mret, M_ret. rewrite Hrun.
    cbv beta iota. by rewrite Hline.
  - destruct (format_map_total meteo_template d Hfr) as [line Hline]. exists line.
    unfold meteo, try_except, mbind, M_bind, lift, mret, M_ret. rewrite Hrun.
    cbv beta iota. by rewrite Hline.
Qed.

Lemma record_is_replied_witness :
  placeholder_record.*1 = record_keys ∧
  ("EN" = "EN" →
   ∃ line, weather (H := ascii_runtime) (demo_world two_days placeholder_url) demo_cfg
             "Paris" "alice" demo_start
           = (Ret None, with_log (snd placeholder_run) [EvReply line])) ∧
  ("EN" = "FR" →
   ∃ line, meteo (H := ascii_runtime) (demo_world two_days placeholder_url) demo_cfg
             "Paris" "alice" demo_start
           = (Ret None, with_log (snd placeholder_run) [EvReply line])).
Proof.
  apply (record_is_replied (H := ascii_runtime) (demo_world two_days placeholder_url)
           demo_cfg demo_start "Paris" "alice" "EN" placeholder_record (snd placeholder_run)).
  exact placeholder_run_returns.
Defined.

(** X17. Remembering the city: after a run on a non-empty text that returned
    the record, [get_location] answers the lower-cased text for the caller,
    and a following run on an empty text geocodes that lower-cased text. *)
Theorem text_is_remembered `{PyRuntime} (w : world) (cfg : config) (st : state)
    (text nick language : string) (d : list (string * json)) (st' : state) :
  reachable st →
  text ≠ "" →
  get_weather_data w cfg text nick language st = (Ret (RDict d), st') →
  get_location nick st' = (Ret (Some (str_lower text)), with_log st' [EvLookup nick]) ∧
  (str_lower text ≠ "" →
   ∀ w' language',
     get_weather_data w' cfg "" nick language' st'
     = weather_at w' cfg "" nick language' (str_lower text) (with_log st' [EvLookup nick])).
Proof.
  intros Hreach Htext Hrun. apply reachable_in_sync in Hreach.
  destruct (get_weather_data_record w cfg st text nick language d st' Hrun)
    as (Hcfg & location & st1 & Hloc & Hat).
  destruct Hloc as [text _|]; [|done].
  pose proof (weather_at_cases w cfg text nick language text st) as Hend.
  rewrite Hat in Hend. simpl in Hend.
  assert (location_cache st' !! str_lower nick = Some (str_lower text)) as Hcached.
  { inversion Hend as [events r Hno|events d' Hempty|events d' st'' _ _ Hset|]; subst;
      [by destruct (Hno d)|done|].
    destruct (set_location_in_sync nick text (with_log st events))
      as (st2 & Hset' & _ & Hcached & _); [by apply in_sync_with_log|].
    rewrite Hset in Hset'. by injection Hset' as ->. }
  split.
  - unfold get_location. by rewrite Hcached.
  - intros Hne w' language'.
    apply get_weather_data_located; [done|]. by apply located_cached.
Qed.

Lemma text_is_remembered_witness :
  get_location (H := ascii_runtime) "alice" (snd placeholder_run)
  = (Ret (Some "paris"), with_log (snd placeholder_run) [EvLookup "alice"]) ∧
  ("paris" ≠ "" →
   ∀ w' language',
     get_weather_data (H := ascii_runtime) w' demo_cfg "" "alice" language'
       (snd placeholder_run)
     = weather_at (H := ascii_runtime) w' demo_cfg "" "alice" language' "paris"
         (with_log (snd placeholder_run) [EvLookup "alice"])).
Proof.
  apply (text_is_remembered (H := ascii_runtime) (demo_world two_days placeholder_url)
           demo_cfg demo_start "Paris" "alice" "EN" placeholder_record (snd placeholder_run)).
  - exact demo_start_reachable.
  - discriminate.
  - exact placeholder_run_returns.
Defined.

(** X18. An empty string in the cache counts as no location: with both keys
    set and an empty text, a caller whose cached location is missing or empty
    gets the [notice_doc] call and [None]. *)
Theorem blank_location_is_none `{PyRuntime} (w : world) (cfg : config) (st : state)
    (nick language : string) :
  configured cfg →
  str_truthy (location_cache st !! str_lower nick) = false →
  get_weather_data w cfg "" nick language st
  = (Ret RNone, with_log st [EvLookup nick; EvNotice]).
Proof.
  intros [Hw Hd] Hblank. unfold get_weather_data. rewrite Hw, Hd. simpl.
  unfold mbind, M_bind, get_location. cbv beta iota. rewrite Hblank. simpl.
  unfold notice_doc, emit. by rewrite with_log_with_log.
Qed.

Lemma blank_location_is_none_witness :
  get_weather_data (H := ascii_runtime) (demo_world two_days "") demo_cfg "" "Alice" "EN"
    blank_start
  = (Ret RNone, with_log blank_start [EvLookup "Alice"; EvNotice]).
Proof.
  apply (blank_location_is_none (H := ascii_runtime) (demo_world two_days "") demo_cfg
           blank_start "Alice" "EN").
  - split; reflexivity.
  - reflexivity.
Defined.

(** ** The record *)

Ltac read_field :=
  refine (ex_intro _ _ (conj _ eq_refl));
  first [eassumption
        | unfold getpath;
          repeat match goal with
                 | E : getitem ?a ?k = Ret _ |- context [getitem ?a ?k] => rewrite E
                 end;
          reflexivity].

(** X19. Where each value of the record comes from: the current conditions
    from [current_observation], the "today" values from the first entry of
    the forecast list and the "tomorrow" values from the second. *)
Theorem record_fields `{PyRuntime} (w : world) (cfg : config) (st : state)
    (text nick language location : string) (st1 st3 : state) (response : json)
    (d : list (string * json)) (st' : state) :
  configured cfg →
  located nick st text location st1 →
  fetched w cfg language location st1 st3 response →
  get_weather_data w cfg text nick language st = (Ret (RDict d), st') →
  ∃ forecast today tomorrow observation,
    forecast_of response = Ret forecast ∧
    getindex forecast 0 = Ret today ∧
    getindex forecast 1 = Ret tomorrow ∧
    getitem response "current_observation" = Ret observation ∧
    record_field d "place" (getpath observation ["display_location"; "full"]) ∧
    record_field d "conditions" (getitem observation "weather") ∧
    record_field d "temp_f" (getitem observation "temp_f") ∧
    record_field d "temp_c" (getitem observation "temp_c") ∧
    record_field d "humidity" (getitem observation "relative_humidity") ∧
    record_field d "wind_kph" (getitem observation "wind_kph") ∧
    record_field d "wind_mph" (getitem observation "wind_mph") ∧
    record_field d "wind_direction" (getitem observation "wind_dir") ∧
    record_field d "today_conditions" (getitem today "conditions") ∧
    record_field d "today_high_f" (getpath today ["high"; "fahrenheit"]) ∧
    record_field d "today_high_c" (getpath today ["high"; "celsius"]) ∧
    record_field d "today_low_f" (getpath today ["low"; "fahrenheit"]) ∧
    record_field d "today_low_c" (getpath today ["low"; "celsius"]) ∧
    record_field d "tomorrow_conditions" (getitem tomorrow "conditions") ∧
    record_field d "tomorrow_high_f" (getpath tomorrow ["high"; "fahrenheit"]) ∧
    record_field d "tomorrow_high_c" (getpath tomorrow ["high"; "celsius"]) ∧
    record_field d "tomorrow_low_f" (getpath tomorrow ["low"; "fahrenheit"]) ∧
    record_field d "tomorrow_low_c" (getpath tomorrow ["low"; "celsius"]).
Proof.
  intros Hcfg Hloc (location_data & st2 & lat & lng & Hfind & Hlat & Hlng & Hhttp & ->) Hrun.
  rewrite (get_weather_data_located w cfg st text nick language location st1) in Hrun by done.
  unfold weather_at, mbind, M_bind in Hrun. rewrite Hfind in Hrun.
  unfold lift, mret, M_ret in Hrun. cbv beta iota in Hrun.
  rewrite Hlat, Hlng in Hrun. cbv beta iota in Hrun.
  rewrite requests_get_run, Hhttp in Hrun. cbv beta iota in Hrun.
  repeat (next_lookup Hrun; [|discriminate Hrun]).
  destruct (truthy _); cbv beta iota in Hrun.
  { next_lookup Hrun; discriminate Hrun. }
  next_lookup Hrun; [|discriminate Hrun].
  destruct (negb (truthy _)); cbv beta iota in Hrun; [discriminate Hrun|].
  repeat (next_lookup Hrun; [|discriminate Hrun]).
  match type of Hrun with context [if ?b then _ else _] => destruct b end;
    cbv beta iota in Hrun; [next_lookup Hrun; [|discriminate Hrun]|].
  all: unfold emit in Hrun; cbv beta iota in Hrun.
  all: destruct (negb (text =? "")); cbv beta iota in Hrun.
  all: try match type of Hrun with context [set_location ?n ?l ?st2] =>
         destruct (set_location n l st2) as [[[]|e] st4]; [|discriminate Hrun]
       end.
  all: injection Hrun as <- <-.
  all: unfold forecast_of.
  all: eexists _, _, _, _; split_and!.
  all: first [eassumption | reflexivity | read_field].
Qed.

Lemma record_fields_witness :
  ∃ forecast today tomorrow observation,
    forecast_of (paris_weather two_days placeholder_url) = Ret forecast ∧
    getindex forecast 0 = Ret today ∧
    getindex forecast 1 = Ret tomorrow ∧
    getitem (paris_weather two_days placeholder_url) "current_observation" = Ret observation ∧
    record_field placeholder_record "place" (getpath observation ["display_location"; "full"]) ∧
    record_field placeholder_record "conditions" (getitem observation "weather") ∧
    record_field placeholder_record "temp_f" (getitem observation "temp_f") ∧
    record_field placeholder_record "temp_c" (getitem observation "temp_c") ∧
    record_field placeholder_record "humidity" (getitem observation "relative_humidity") ∧
    record_field placeholder_record "wind_kph" (getitem observation "wind_kph") ∧
    record_field placeholder_record "wind_mph" (getitem observation "wind_mph") ∧
    record_field placeholder_record "wind_direction" (getitem observation "wind_dir") ∧
    record_field placeholder_record "today_conditions" (getitem today "conditions") ∧
    record_field placeholder_record "today_high_f" (getpath today ["high"; "fahrenheit"]) ∧
    record_field placeholder_record "today_high_c" (getpath today ["high"; "celsius"]) ∧
    record_field placeholder_record "today_low_f" (getpath today ["low"; "fahrenheit"]) ∧
    record_field placeholder_record "today_low_c" (getpath today ["low"; "celsius"]) ∧
    record_field placeholder_record "tomorrow_conditions" (getitem tomorrow "conditions") ∧
    record_field placeholder_record "tomorrow_high_f"
      (getpath tomorrow ["high"; "fahrenheit"]) ∧
    record_field placeholder_record "tomorrow_high_c" (getpath tomorrow ["high"; "celsius"]) ∧
    record_field placeholder_record "tomorrow_low_f" (getpath tomorrow ["low"; "fahrenheit"]) ∧
    record_field placeholder_record "tomorrow_low_c" (getpath tomorrow ["low"; "celsius"]).
Proof.
  apply (record_fields (H := ascii_runtime) (demo_world two_days placeholder_url) demo_cfg
           demo_start "Paris" "alice" "EN" "Paris" demo_start
           (with_log demo_start
              [EvGet geocode_api [("address", Some "Paris"); ("key", Some "google-key")];
               EvGet (wunder_api "wunder-key" "EN" "49,2") []])
           (paris_weather two_days placeholder_url)
           placeholder_record (snd placeholder_run)).
  - split; reflexivity.
  - by apply located_text.
  - apply demo_fetched.
  - exact placeholder_run_returns.
Defined.

Lemma format_map_raises `{PyRuntime} (template : list segment) (d : list (string * json))
    (e : exn) :
  format_map template d = Raise e → ∃ name, e = KeyError name.
Proof.
  revert e. induction template as [|[s|name] template IH]; intros e; simpl.
  - discriminate.
  - destruct (format_map template d) as [rest|e']; [discriminate|].
    intros [= <-]. by apply IH.
  - destruct (assoc name d) as [v|]; [|intros [= <-]; by eexists].
    destruct (format_map template d) as [rest|e']; [discriminate|].
    intros [= <-]. by apply IH.
Qed.

(** X20. The two errors of the plugin never leave a command: whatever the
    input, the configuration and the services, neither [weather] nor [meteo]
    raises [APIKeyMissing] or [GeocodeAPIError]. *)
Theorem domain_errors_are_caught `{PyRuntime} (w : world) (cfg : config) (st : state)
    (text nick : string) :
  (∀ name, fst (weather w cfg text nick st) ≠ Raise (APIKeyMissing name)) ∧
  (∀ status, fst (weather w cfg text nick st) ≠ Raise (GeocodeAPIError status)) ∧
  (∀ name, fst (meteo w cfg text nick st) ≠ Raise (APIKeyMissing name)) ∧
  (∀ status, fst (meteo w cfg text nick st) ≠ Raise (GeocodeAPIError status)).
Proof.
  split_and!; intros x; unfold weather, meteo, try_except, mbind, M_bind, lift, mret, M_ret.
  all: match goal with |- context [get_weather_data ?w0 ?c ?t ?n ?l ?s] =>
         destruct (get_weather_data w0 c t n l s) as [[[| |d]|e] st'] end.
  all: cbv beta iota; try discriminate.
  all: try (destruct e; cbv beta iota; discriminate).
  all: try (destruct (String.eqb _ _); discriminate).
  all: match goal with |- context [format_map ?t ?d0] =>
         destruct (format_map t d0) as [line|e] eqn:Hline end.
  all: cbv beta iota; try discriminate.
  all: apply format_map_raises in Hline as [name ->]; simpl; discriminate.
Qed.
